(** * Windows 11 compatibility checker (script.py): model and verification

    The development embeds the decision logic of [script.py]: the helper
    functions ([safe_run], [bytes_to_gb], [check_requirement]), the
    probes ([get_cpu_info], [get_disk_info], [get_tpm_info],
    [get_secure_boot_status], [get_firmware_type], ...), [build_report]
    and [write_output_file].

    Python objects are dynamically typed, so the probes return [value]s
    (None, bool, int, float, str); operators that raise in Python return
    a [result].  Floats are IEEE-754 binary64 numbers, taken from the
    specification of the Standard Library ([SpecFloat]).  Python [str]
    is modelled by [string] holding the UTF-8 bytes of the text. *)

From Stdlib Require Import ZArith List String Ascii Bool Lia DecimalString.
From Stdlib Require Import Floats.SpecFloat.
From stdpp Require Import base option gmap strings.

Open Scope string_scope.
Open Scope list_scope.
Open Scope Z_scope.

(* ================================================================= *)
(** * Python runtime *)

Module Py.

(** Exceptions the modelled code can meet (all subclasses of [Exception]). *)
Inductive exn : Type :=
  | TypeError
  | AttributeError
  | OverflowError
  | ZeroDivisionError
  | OSError
  | TimeoutExpired.

(** Outcome of evaluating an expression or a call. *)
Inductive result (A : Type) : Type :=
  | Ok (a : A)
  | Raise (e : exn).
Arguments Ok {A} a.
Arguments Raise {A} e.

Definition bind {A B : Type} (r : result A) (k : A -> result B) : result B :=
  match r with
  | Ok a => k a
  | Raise e => Raise e
  end.

(** [try: r  except Exception: d]. *)
Definition try_except {A : Type} (r : result A) (d : A) : A :=
  match r with
  | Ok a => a
  | Raise _ => d
  end.

(** Python objects handled by the probes. *)
Inductive value : Type :=
  | VNone
  | VBool (b : bool)
  | VInt (z : Z)
  | VFloat (f : spec_float)
  | VStr (s : string).

(** [isinstance(v, (int, float))]; [bool] is a subclass of [int]. *)
Definition isinstance_int_float (v : value) : bool :=
  match v with
  | VBool _ | VInt _ | VFloat _ => true
  | VNone | VStr _ => false
  end.

End Py.
Export Py.

Notation "'let*' x ':=' r 'in' k" := (bind r (fun x => k))
  (at level 10, x name, r at level 100, k at level 200).

(* ================================================================= *)
(** * binary64 arithmetic *)

Module F64.

Definition prec : Z := 53.
Definition emax : Z := 1024.

(** [float(z)]: the nearest double, ties to even. *)
Definition of_Z (z : Z) : spec_float := binary_normalize prec emax z 0 false.

(** Correctly rounded quotient of two integers, [b <> 0].  [SFdiv_core_binary]
    takes mantissas of any size, so the quotient is rounded once. *)
Definition div_Z (a b : Z) : spec_float :=
  match a with
  | Z0 => S754_zero (b <? 0)
  | _ => SFdiv prec emax (S754_finite (a <? 0) (Z.to_pos (Z.abs a)) 0)
                         (S754_finite (b <? 0) (Z.to_pos (Z.abs b)) 0)
  end.

Definition is_infinite (f : spec_float) : bool :=
  match f with
  | S754_infinity _ => true
  | _ => false
  end.

(** [a / b] on two Python ints: correctly rounded, [OverflowError] when the
    quotient is too large for a float. *)
Definition int_truediv (a b : Z) : result spec_float :=
  if b =? 0 then Raise ZeroDivisionError
  else let q := div_Z a b in
       if is_infinite q then Raise OverflowError else Ok q.

(** [x / b] with [x] a float and [b] an int: [b] is converted first. *)
Definition float_truediv (x : spec_float) (b : Z) : result spec_float :=
  if b =? 0 then Raise ZeroDivisionError
  else let y := of_Z b in
       if is_infinite y then Raise OverflowError else Ok (SFdiv prec emax x y).

(** Nearest integer to [num / den] ([0 < den]), ties to the even one. *)
Definition round_half_even (num den : Z) : Z :=
  let q := num / den in
  let r := num mod den in
  match 2 * r ?= den with
  | Lt => q
  | Gt => q + 1
  | Eq => if Z.even q then q else q + 1
  end.

(** [round(x, ndigits)] for [0 <= ndigits] (below the cut-off beyond which
    CPython returns [x] unchanged): the exact value of [x] is rounded to
    [ndigits] decimals, ties to even, and the decimal is converted to the
    nearest double. *)
Definition round_ndigits (x : spec_float) (ndigits : Z) : result spec_float :=
  match x with
  | S754_finite s m e =>
      let p := 10 ^ ndigits in
      let k := if 0 <=? e then Z.pos m * 2 ^ e * p
               else round_half_even (Z.pos m * p) (2 ^ (- e)) in
      match k with
      | Zpos k' =>
          let r := SFdiv prec emax (S754_finite s k' 0)
                                   (S754_finite false (Z.to_pos p) 0) in
          if is_infinite r then Raise OverflowError else Ok r
      | _ => Ok (S754_zero s)
      end
  | _ => Ok x
  end.

(** [x >= n] for a float [x] and an int [n]: Python compares the exact
    values. *)
Definition ge_Z (x : spec_float) (n : Z) : bool :=
  match x with
  | S754_nan => false
  | S754_infinity s => negb s
  | S754_zero _ => n <=? 0
  | S754_finite s m e =>
      let m' := if s then Z.neg m else Z.pos m in
      if 0 <=? e then n <=? m' * 2 ^ e
      else n * 2 ^ (- e) <=? m'
  end.

End F64.

(** [v >= n] with [n] an int literal. *)
Definition py_ge (v : value) (n : Z) : result bool :=
  match v with
  | VInt z => Ok (n <=? z)
  | VBool b => Ok (n <=? Z.b2z b)
  | VFloat f => Ok (F64.ge_Z f n)
  | VNone | VStr _ => Raise TypeError
  end.

(** [v / n] with [n] an int. *)
Definition py_truediv (v : value) (n : Z) : result spec_float :=
  match v with
  | VInt z => F64.int_truediv z n
  | VBool b => F64.int_truediv (Z.b2z b) n
  | VFloat f => F64.float_truediv f n
  | VNone | VStr _ => Raise TypeError
  end.

(* ================================================================= *)
(** * Methods of [str]

    Case mapping and white space follow the ASCII range; bytes of
    multi-byte UTF-8 sequences are left as they are.  No code point
    outside ASCII is mapped by [str.lower] to a text made of ASCII letters
    among t, r, u, e, so a comparison of [lower s] with an ASCII literal is
    decided as in Python. *)

Module Str.

Definition chr (n : nat) : string := String (ascii_of_nat n) "".

(** The characters written [\n], [\x00] and the double quote. *)
Definition nl : string := chr 10.
Definition nul : ascii := ascii_of_nat 0.
Definition dquote : string := chr 34.

Definition is_upper (c : ascii) : bool :=
  let n := nat_of_ascii c in (65 <=? n)%nat && (n <=? 90)%nat.

Definition is_lower (c : ascii) : bool :=
  let n := nat_of_ascii c in (97 <=? n)%nat && (n <=? 122)%nat.

Definition lower_ascii (c : ascii) : ascii :=
  if is_upper c then ascii_of_nat (nat_of_ascii c + 32) else c.

Definition upper_ascii (c : ascii) : ascii :=
  if is_lower c then ascii_of_nat (nat_of_ascii c - 32) else c.

(** [s.lower()]. *)
Fixpoint lower (s : string) : string :=
  match s with
  | "" => ""
  | String c t => String (lower_ascii c) (lower t)
  end.

(** [s.title()]: a cased character is upper case after an uncased one and
    lower case after a cased one. *)
Fixpoint title_from (previous_is_cased : bool) (s : string) : string :=
  match s with
  | "" => ""
  | String c t =>
      if is_lower c then
        String (if previous_is_cased then c else upper_ascii c) (title_from true t)
      else if is_upper c then
        String (if previous_is_cased then lower_ascii c else c) (title_from true t)
      else String c (title_from false t)
  end.

Definition title (s : string) : string := title_from false s.

(** [hay] starts with [needle]. *)
Fixpoint is_prefix (needle hay : string) : bool :=
  match needle, hay with
  | "", _ => true
  | String a n, String b h => Ascii.eqb a b && is_prefix n h
  | String _ _, "" => false
  end.

(** [needle in hay] on two strings: [needle] starts at some position of
    [hay]. *)
Fixpoint contains (needle hay : string) : bool :=
  is_prefix needle hay ||
  match hay with
  | "" => false
  | String _ t => contains needle t
  end.

Fixpoint lstrip (p : ascii -> bool) (s : string) : string :=
  match s with
  | "" => ""
  | String c t => if p c then lstrip p t else s
  end.

Fixpoint rstrip (p : ascii -> bool) (s : string) : string :=
  match s with
  | "" => ""
  | String c t =>
      match rstrip p t with
      | "" => if p c then "" else String c ""
      | t' => String c t'
      end
  end.

Definition is_space (c : ascii) : bool :=
  let n := nat_of_ascii c in
  ((9 <=? n)%nat && (n <=? 13)%nat) || ((28 <=? n)%nat && (n <=? 32)%nat).

(** [s.strip()]. *)
Definition strip (s : string) : string := rstrip is_space (lstrip is_space s).

(** [s.strip(chars)]. *)
Definition strip_chars (chars : list ascii) (s : string) : string :=
  let p c := existsb (Ascii.eqb c) chars in
  rstrip p (lstrip p s).

(** [sep.join(l)]. *)
Fixpoint join (sep : string) (l : list string) : string :=
  match l with
  | [] => ""
  | [x] => x
  | x :: r => x +:+ sep +:+ join sep r
  end.

(** [x in t] for a tuple [t] of strings. *)
Definition mem (x : string) (t : list string) : bool :=
  existsb (String.eqb x) t.

(** [str(z)] for an int. *)
Definition of_Z (z : Z) : string := NilZero.string_of_int (Z.to_int z).

End Str.

(* ================================================================= *)
(** * JSON documents as returned by [json.loads] *)

Module Json.

(** A parsed document; [JObject] lists the items of the dict. *)
#[warnings="-register-all"]
Inductive json : Type :=
  | JNull
  | JBool (b : bool)
  | JInt (z : Z)
  | JFloat (f : spec_float)
  | JStr (s : string)
  | JArray (l : list json)
  | JObject (items : list (string * json)).

Definition truthy (j : json) : bool :=
  match j with
  | JNull => false
  | JBool b => b
  | JInt z => negb (z =? 0)
  | JFloat (S754_zero _) => false
  | JFloat _ => true
  | JStr s => negb (String.eqb s "")
  | JArray l => match l with [] => false | _ => true end
  | JObject items => match items with [] => false | _ => true end
  end.

Fixpoint assoc (key : string) (items : list (string * json)) : option json :=
  match items with
  | [] => None
  | (k, v) :: r => if String.eqb k key then Some v else assoc key r
  end.

(** [j.get(key, default)]; only a dict has the method. *)
Definition get (j : json) (key : string) (default : json) : result json :=
  match j with
  | JObject items =>
      Ok (match assoc key items with Some v => v | None => default end)
  | _ => Raise AttributeError
  end.

(** [(v or "").strip("\x00")]: a value that is true and not a [str] has no
    [strip]. *)
Definition or_empty_strip_nul (v : json) : result string :=
  if truthy v then
    match v with
    | JStr s => Ok (Str.strip_chars [Str.nul] s)
    | _ => Raise AttributeError
    end
  else Ok (Str.strip_chars [Str.nul] "").

End Json.
Export Json(json, JNull, JBool, JInt, JFloat, JStr, JArray, JObject).

(* ================================================================= *)
(** * The host as the probes observe it *)

Module Host.

(** Outcome of [subprocess.run(cmd, ..., timeout=t)]: the process ends with
    a return code and its two output streams, or the call raises (among
    others [TimeoutExpired] once [t] seconds have passed); [msg] is [str(e)]. *)
Inductive run_outcome : Type :=
  | Completed (returncode : Z) (stdout stderr : string)
  | RunRaised (e : exn) (msg : string).

Record wmi_computer_system : Type := {
  Manufacturer : option value;
  Model : option value
}.

Record wmi_processor : Type := {
  Name : value;
  NumberOfCores : value
}.

(** A connection [wmi.WMI()]; each query may raise.  A video controller is
    given by its [Name] attribute. *)
Record wmi_connection : Type := {
  Win32_ComputerSystem : result (list wmi_computer_system);
  Win32_Processor : result (list wmi_processor);
  Win32_VideoController : result (list value)
}.

Record host : Type := {
  gethostname : string;
  getuser : result string;
  environ_USERNAME : option string;
  platform_win32_ver_0 : string;
  platform_system : string;
  platform_release : string;
  platform_version : string;
  platform_architecture_0 : string;
  platform_processor : string;
  (** [None] when [import wmi] failed, else the outcome of [wmi.WMI()]. *)
  wmi : option (result wmi_connection);
  (** [psutil.cpu_count(logical=False)]: an int, or [None] if undetermined. *)
  psutil_cpu_count : value;
  psutil_virtual_memory_total : Z;
  (** [psutil.disk_usage("C:\\")]: [(total, free)]. *)
  psutil_disk_usage : result (Z * Z);
  subprocess_run : string -> Z -> run_outcome;
  os_path_exists : string -> bool;
  sys_frozen : bool;
  sys_executable : string;
  os_getcwd : string
}.

End Host.
Export Host.

(* ================================================================= *)
(** * script.py: helper functions *)

(** Default of the [timeout] parameter of [safe_run], in seconds. *)
Definition safe_run_default_timeout : Z := 8.

(** [safe_run(cmd, timeout)]: [(ok, text)]. *)
Definition safe_run (w : host) (cmd : string) (timeout : Z) : bool * string :=
  match subprocess_run w cmd timeout with
  | Completed returncode stdout stderr =>
      let out := Str.strip stdout in
      let err := Str.strip stderr in
      if returncode =? 0 then (true, out)
      else (false, if negb (String.eqb out "") then out else err)
  | RunRaised _ msg => (false, msg)
  end.

(** The command did not succeed: the call raised (a timeout among others) or
    the process ended with a status other than zero. *)
Definition run_failed (o : run_outcome) : bool :=
  match o with
  | Completed returncode _ _ => negb (returncode =? 0)
  | RunRaised _ _ => true
  end.

(** The host whose [subprocess.run] answers every call as [w] answers it
    under the default timeout of [safe_run]. *)
Definition at_default_timeout (w : host) : host :=
  {| gethostname := gethostname w;
     getuser := getuser w;
     environ_USERNAME := environ_USERNAME w;
     platform_win32_ver_0 := platform_win32_ver_0 w;
     platform_system := platform_system w;
     platform_release := platform_release w;
     platform_version := platform_version w;
     platform_architecture_0 := platform_architecture_0 w;
     platform_processor := platform_processor w;
     wmi := wmi w;
     psutil_cpu_count := psutil_cpu_count w;
     psutil_virtual_memory_total := psutil_virtual_memory_total w;
     psutil_disk_usage := psutil_disk_usage w;
     subprocess_run := fun cmd _ => subprocess_run w cmd safe_run_default_timeout;
     os_path_exists := os_path_exists w;
     sys_frozen := sys_frozen w;
     sys_executable := sys_executable w;
     os_getcwd := os_getcwd w |}.

(** [bytes_to_gb(b)]: [round(b / (1024 ** 3), 2)], or [None] when that
    raises. *)
Definition bytes_to_gb (b : value) : value :=
  try_except
    (let* q := py_truediv b (1024 ^ 3) in
     let* r := F64.round_ndigits q 2 in
     Ok (VFloat r))
    VNone.

Definition check_requirement (condition : bool) : string :=
  if condition then "✔️ Compatível" else "❌ Não compatível".

(* ================================================================= *)
(** * script.py: probes *)

Definition get_hostname (w : host) : string := gethostname w.

Definition get_current_user (w : host) : string :=
  match getuser w with
  | Ok u => u
  | Raise _ =>
      match environ_USERNAME w with
      | Some u => u
      | None => "Desconhecido"
      end
  end.

Definition get_os_info (w : host) : string * string :=
  (platform_system w +:+ " " +:+ platform_release w +:+ " " +:+
   platform_win32_ver_0 w +:+ " (" +:+ platform_version w +:+ ")",
   platform_architecture_0 w).

(** [getattr(obj, name, "Desconhecido")]. *)
Definition getattr_or_unknown (a : option value) : value :=
  match a with
  | Some v => v
  | None => VStr "Desconhecido"
  end.

Definition get_manufacturer_model (w : host) : value * value :=
  match wmi w with
  | Some (Ok c) =>
      match Win32_ComputerSystem c with
      | Ok (sysinfo :: _) =>
          (getattr_or_unknown (Manufacturer sysinfo),
           getattr_or_unknown (Model sysinfo))
      | _ => (VStr "Desconhecido", VStr "Desconhecido")
      end
  | _ => (VStr "Desconhecido", VStr "Desconhecido")
  end.

(** [v.strip()]: only a [str] has the method. *)
Definition value_strip (v : value) : result string :=
  match v with
  | VStr s => Ok (Str.strip s)
  | _ => Raise AttributeError
  end.

Definition get_cpu_info (w : host) : string * value :=
  let fallback := (platform_processor w, psutil_cpu_count w) in
  match wmi w with
  | Some (Ok c) =>
      match Win32_Processor c with
      | Ok (cpu :: _) =>
          match value_strip (Name cpu) with
          | Ok name => (name, NumberOfCores cpu)
          | Raise _ => fallback
          end
      | _ => fallback
      end
  | _ => fallback
  end.

Definition get_ram_gb (w : host) : value :=
  bytes_to_gb (VInt (psutil_virtual_memory_total w)).

Definition get_disk_info (w : host) : value * value :=
  match psutil_disk_usage w with
  | Ok (total, free) => (bytes_to_gb (VInt total), bytes_to_gb (VInt free))
  | Raise _ => (VStr "Desconhecido", VStr "Desconhecido")
  end.

(** [[g.Name.strip() for g in gs]]. *)
Fixpoint strip_names (gs : list value) : result (list string) :=
  match gs with
  | [] => Ok []
  | g :: r =>
      let* n := value_strip g in
      let* ns := strip_names r in
      Ok (n :: ns)
  end.

Definition get_gpu_names (w : host) : string :=
  match wmi w with
  | Some (Ok c) =>
      match (let* gs := Win32_VideoController c in strip_names gs) with
      | Ok [] => "Desconhecido"
      | Ok names => Str.join ", " names
      | Raise _ => "Desconhecido"
      end
  | _ => "Desconhecido"
  end.

Definition cmd_secure_boot : string :=
  "powershell -Command " +:+ Str.dquote +:+ "Confirm-SecureBootUEFI" +:+ Str.dquote.

Definition get_secure_boot_status (w : host) : string :=
  let '(ok, out) := safe_run w cmd_secure_boot safe_run_default_timeout in
  if ok && Str.mem (Str.lower out) ["true"; "false"] then Str.title out
  else "Indisponível".

Definition cmd_firmware_cim : string :=
  "powershell -Command " +:+ Str.dquote +:+
  "(Get-CimInstance -ClassName Win32_ComputerSystem).SystemFirmwareType" +:+
  Str.dquote.

Definition cmd_firmware_wmi : string :=
  "powershell -Command " +:+ Str.dquote +:+
  "(Get-WmiObject -Class Win32_ComputerSystem).SystemFirmwareType" +:+
  Str.dquote.

Definition efi_paths : list string :=
  ["C:\EFI"; "C:\Boot\EFI"; "C:\Windows\Boot\EFI"].

Definition get_firmware_type (w : host) : string :=
  let '(ok, out) := safe_run w cmd_firmware_cim safe_run_default_timeout in
  if ok && Str.mem (Str.strip out) ["2"; "UEFI"; "uefi"] then "UEFI"
  else if ok && Str.mem (Str.strip out) ["1"; "BIOS"; "bios"] then "Legacy/BIOS"
  else
    let '(ok, out) := safe_run w cmd_firmware_wmi safe_run_default_timeout in
    if ok && Str.mem (Str.strip out) ["2"; "UEFI"; "uefi"] then "UEFI"
    else if ok && Str.mem (Str.strip out) ["1"; "BIOS"; "bios"] then "Legacy/BIOS"
    else if existsb (os_path_exists w) efi_paths then "UEFI"
    else "Desconhecido".

(** The dict returned by [get_tpm_info]; [raw] is the parsed document or,
    when there is none, the text of the command. *)
Record tpm_info : Type := {
  status : string;
  enabled : string;
  version : string;
  manufacturer : string;
  is_tpm20 : bool;
  raw : json + string
}.

Definition tpm_unknown (out : string) : tpm_info :=
  {| status := "Desconhecido"; enabled := "Desconhecido";
     version := "Desconhecido"; manufacturer := "Desconhecido";
     is_tpm20 := false; raw := inr out |}.

Definition cmd_tpm : string :=
  "powershell -Command " +:+ Str.dquote +:+
  "Get-Tpm | ConvertTo-Json -Depth 4" +:+ Str.dquote.

(** [a or b] on two strings. *)
Definition str_or (a b : string) : string :=
  if negb (String.eqb a "") then a else b.

(** The body of the [try] of [get_tpm_info], once [out] is parsed. *)
Definition tpm_of_json (out : string) (j : json) : result tpm_info :=
  let* tpm_present := Json.get j "TpmPresent" (JBool false) in
  let* tpm_enabled := Json.get j "TpmEnabled" (JBool false) in
  let* tpm_ready := Json.get j "TpmReady" (JBool false) in
  let* spec_ver :=
    (let* v := Json.get j "SpecVersion" JNull in Json.or_empty_strip_nul v) in
  let* manuf_ver :=
    (let* v := Json.get j "ManufacturerVersionFull20" JNull in
     Json.or_empty_strip_nul v) in
  let* manuf :=
    (let* v := Json.get j "ManufacturerIdTxt" JNull in Json.or_empty_strip_nul v) in
  let is_tpm20 :=
    negb (String.eqb manuf_ver "") || Str.contains "Full20" out ||
    Str.contains "2.0" spec_ver in
  Ok {| status := if Json.truthy tpm_present then "Presente" else "Ausente";
        enabled := if Json.truthy tpm_enabled || Json.truthy tpm_ready
                   then "Ativado" else "Desativado";
        version := str_or manuf_ver (str_or spec_ver "Desconhecido");
        manufacturer := str_or manuf "Desconhecido";
        is_tpm20 := is_tpm20;
        raw := inl j |}.

Section Probes.

(** [json.loads]: the parsed document, or the exception of a malformed
    text. *)
Variable json_loads : string -> result json.

Definition get_tpm_info (w : host) : tpm_info :=
  let '(ok, out) := safe_run w cmd_tpm safe_run_default_timeout in
  if ok && negb (String.eqb out "") then
    try_except (let* j := json_loads out in tpm_of_json out j) (tpm_unknown out)
  else tpm_unknown out.

End Probes.

(* ================================================================= *)
(** * script.py: [build_report] *)

(** The values [build_report] binds from the probes (lines 171-181). *)
Record facts : Type := {
  host_name : string;
  user : string;
  os_info : string;
  arch : string;
  manu : value;
  model : value;
  cpu_name : string;
  cpu_cores : value;
  ram_gb : value;
  disk_total : value;
  disk_free : value;
  gpu : string;
  tpm : tpm_info;
  secure_boot : string;
  firmware : string
}.

(** The seven expressions of the [checks] dict, each on the variables it
    reads. *)
Definition check_ram (ram_gb : value) : result bool := py_ge ram_gb 4.

Definition check_cpu (cpu_cores : value) : result bool := py_ge cpu_cores 2.

Definition check_disco (disk_total : value) : result bool :=
  if isinstance_int_float disk_total then py_ge disk_total 64
  else Ok false.

Definition check_tpm (tpm : tpm_info) : bool :=
  is_tpm20 tpm && Str.contains "Ativado" (enabled tpm).

Definition check_firmware (firmware : string) : bool :=
  Str.contains "UEFI" firmware.

Definition check_secure_boot (secure_boot : string) : bool :=
  String.eqb (Str.lower secure_boot) "true".

Definition check_arquitetura (arch : string) : bool := Str.contains "64" arch.

(** The dict [checks], as its items in insertion order. *)
Definition checks (f : facts) : result (list (string * bool)) :=
  let* ram := check_ram (ram_gb f) in
  let* cpu := check_cpu (cpu_cores f) in
  let* disco := check_disco (disk_total f) in
  Ok [("RAM", ram); ("CPU", cpu); ("Disco", disco); ("TPM", check_tpm (tpm f));
      ("Firmware", check_firmware (firmware f));
      ("SecureBoot", check_secure_boot (secure_boot f));
      ("Arquitetura", check_arquitetura (arch f))].

(** [all(checks.values())]. *)
Definition fully_compatible (cs : list (string * bool)) : bool :=
  forallb snd cs.

(** [[k for k, ok in checks.items() if not ok]]. *)
Definition faltando (cs : list (string * bool)) : list string :=
  map fst (List.filter (fun kv => negb (snd kv)) cs).

(** The fixed order of the categories. *)
Definition category_names : list string :=
  ["RAM"; "CPU"; "Disco"; "TPM"; "Firmware"; "SecureBoot"; "Arquitetura"].

(** The names of the categories that are false, in the fixed order. *)
Definition failing (ram cpu disco tpm fw sb arq : bool) : list string :=
  (if ram then [] else ["RAM"]) ++ (if cpu then [] else ["CPU"]) ++
  (if disco then [] else ["Disco"]) ++ (if tpm then [] else ["TPM"]) ++
  (if fw then [] else ["Firmware"]) ++ (if sb then [] else ["SecureBoot"]) ++
  (if arq then [] else ["Arquitetura"]).

Definition lines_summary (cs : list (string * bool)) : list string :=
  "Resumo Geral:" ::
  (if fully_compatible cs then
     ["✅ Este computador é TOTALMENTE compatível com o Windows 11."]
   else
     ["⚠️ Este computador NÃO atende a todos os requisitos do Windows 11.";
      "Itens não compatíveis: " +:+ Str.join ", " (faltando cs)]).

Definition lines_security (f : facts) : list string :=
  ["3. Segurança e Firmware:" +:+ Str.nl;
   "- TPM: " +:+ status (tpm f) +:+ " / " +:+ enabled (tpm f) +:+ " — " +:+
     check_requirement (Str.contains "Ativado" (enabled (tpm f)));
   "- Versão TPM: " +:+ version (tpm f) +:+ " — " +:+
     check_requirement (is_tpm20 (tpm f)) +:+ " (Requisito: 2.0)";
   "- Firmware: " +:+ firmware f +:+ " — " +:+
     check_requirement (Str.contains "UEFI" (firmware f)) +:+ " (Requisito: UEFI)";
   "- Secure Boot: " +:+ secure_boot f +:+ " — " +:+
     check_requirement (String.eqb (Str.lower (secure_boot f)) "true") +:+
     " (Requisito: Ativado)" +:+ Str.nl].

Section Report.

Variable json_loads : string -> result json.

(** [str(x)] of a float and of a parsed JSON document (the formatting
    routines of the interpreter). *)
Variable float_str : spec_float -> string.
Variable json_str : json -> string.

(** [str(v)], as an f-string inserts it. *)
Definition value_str (v : value) : string :=
  match v with
  | VNone => "None"
  | VBool b => if b then "True" else "False"
  | VInt z => Str.of_Z z
  | VFloat x => float_str x
  | VStr s => s
  end.

Definition lines_identification (f : facts) : list string :=
  ["1. Dados de Identificação e Sistema:" +:+ Str.nl;
   "- Nome da Máquina: " +:+ host_name f;
   "- Usuário Logado: " +:+ user f;
   "- Sistema Operacional: " +:+ os_info f;
   "- Arquitetura do SO: " +:+ arch f +:+ " — " +:+
     check_requirement (Str.contains "64" (arch f));
   "- Fabricante: " +:+ value_str (manu f);
   "- Modelo: " +:+ value_str (model f) +:+ Str.nl].

(** The [if isinstance(disk_total, (int, float))] statement of the Hardware
    section. *)
Definition lines_disk (f : facts) : result (list string) :=
  if isinstance_int_float (disk_total f) then
    let* ok := py_ge (disk_total f) 64 in
    Ok ["- Disco C: " +:+ value_str (disk_total f) +:+ " GB — " +:+
        check_requirement ok +:+ " (≥ 64 GB)"]
  else Ok [].

Definition lines_hardware (f : facts) : result (list string) :=
  let* ram := py_ge (ram_gb f) 4 in
  let* cpu := py_ge (cpu_cores f) 2 in
  let* disk := lines_disk f in
  Ok (["2. Hardware:" +:+ Str.nl;
       "- Memória RAM: " +:+ value_str (ram_gb f) +:+ " GB — " +:+
         check_requirement ram +:+ " (≥ 4 GB)";
       "- CPU: " +:+ cpu_name f +:+ " (" +:+ value_str (cpu_cores f) +:+
         " núcleos) — " +:+ check_requirement cpu]
      ++ disk ++
      ["- GPU: " +:+ gpu f +:+ " — " +:+
         check_requirement (negb (String.eqb (gpu f) "Desconhecido")) +:+ Str.nl]).

Definition lines_debug (f : facts) (debug : bool) : list string :=
  if debug then
    [Str.nl +:+ "[DEBUG] TPM RAW:";
     match raw (tpm f) with inl j => json_str j | inr out => out end]
  else [].

(** Lines 183-229: the list [lines] once the probes have answered. *)
Definition report_lines (f : facts) (debug : bool) : result (list string) :=
  let* cs := checks f in
  let* hardware := lines_hardware f in
  Ok (["Relatório de Compatibilidade com Windows 11 + Simulação Visual" +:+ Str.nl]
      ++ lines_identification f ++ hardware ++ lines_security f
      ++ lines_summary cs ++ lines_debug f debug).

(** Lines 171-181: the variables bound from the probes; a pair returned by
    a probe is unpacked with [fst] and [snd]. *)
Definition probe (w : host) : facts :=
  {| host_name := get_hostname w;
     user := get_current_user w;
     os_info := fst (get_os_info w);
     arch := snd (get_os_info w);
     manu := fst (get_manufacturer_model w);
     model := snd (get_manufacturer_model w);
     cpu_name := fst (get_cpu_info w);
     cpu_cores := snd (get_cpu_info w);
     ram_gb := get_ram_gb w;
     disk_total := fst (get_disk_info w);
     disk_free := snd (get_disk_info w);
     gpu := get_gpu_names w;
     tpm := get_tpm_info json_loads w;
     secure_boot := get_secure_boot_status w;
     firmware := get_firmware_type w |}.

(** [build_report(debug)]: the text of the report and the host name. *)
Definition build_report (w : host) (debug : bool) : result (string * string) :=
  let f := probe w in
  let* lines := report_lines f debug in
  Ok (Str.join Str.nl lines, host_name f).

End Report.

(* ================================================================= *)
(** * script.py: [write_output_file] *)

(** A text file: the encoding it was opened with and the text written. *)
Record file : Type := {
  file_encoding : string;
  file_text : string
}.

(** The files of the machine, by path, and the paths [open(path, "w")]
    accepts (the others raise [OSError]). *)
Record file_system : Type := {
  files : gmap string file;
  writable : string -> bool
}.

(** [with open(path, "w", encoding=enc) as f: f.write(content)]: the file is
    created or truncated, then holds [content]. *)
Definition open_w_write (fs : file_system) (path enc content : string)
  : result file_system :=
  if writable fs path then
    Ok {| files := <[path := {| file_encoding := enc; file_text := content |}]> (files fs);
          writable := writable fs |}
  else Raise OSError.

Section Sink.

(** [os.path.join] and [os.path.dirname] of the platform. *)
Variable os_path_join : string -> string -> string.
Variable os_path_dirname : string -> string.

Definition base_dir (w : host) : string :=
  if sys_frozen w then os_path_dirname (sys_executable w) else os_getcwd w.

Definition write_output_file (w : host) (fs : file_system)
    (content hostname : string) : result (file_system * string) :=
  let out_path := os_path_join (base_dir w) (hostname +:+ ".txt") in
  let* fs' := open_w_write fs out_path "utf-8" content in
  Ok (fs', out_path).

End Sink.

(* ================================================================= *)
(** * script.py: the main block, from the report to its file *)

Section Main.

Variable json_loads : string -> result json.
Variable float_str : spec_float -> string.
Variable json_str : json -> string.
Variable os_path_join : string -> string -> string.
Variable os_path_dirname : string -> string.

(** Lines 339-341: the report is built, written to its file and the path
    announced.  The result pairs the files left behind with the message
    printed or, when a call raises, the exception the enclosing [try]
    receives; [argv] is [sys.argv]. *)
Definition main_generate_report (argv : list string) (w : host)
    (fs : file_system) : file_system * result string :=
  match build_report json_loads float_str json_str w (Str.mem "--debug" argv) with
  | Raise e => (fs, Raise e)
  | Ok (report, host) =>
      match write_output_file os_path_join os_path_dirname w fs report host with
      | Raise e => (fs, Raise e)
      | Ok (fs', path) =>
          (fs', Ok ("[✅] Relatório gerado com sucesso: " +:+ path))
      end
  end.

End Main.

(* ================================================================= *)
(** * script.py: sound and the closing animation *)

Module Term.

(** What the functions below do to the terminal, in order.  [Write] is a
    text sent to [sys.stdout] ([print(x)] writes [x] and a line end),
    [Sleep] a call of [time.sleep], [Beep] a call of [winsound.Beep] that
    returned, [System] a call of [os.system]. *)
Inductive event : Type :=
  | Write (text : string)
  | Flush
  | Sleep (seconds : value)
  | Beep (freq duration : Z)
  | System (cmd : string).

(** [sys.platform], [os.name] and the module [winsound]: [None] when the
    import raises, else whether the call number [i] of [Beep] returns
    ([true]) or raises. *)
Record terminal : Type := {
  sys_platform : string;
  os_name : string;
  winsound : option (nat -> bool)
}.

(** [print(text)]. *)
Definition print (text : string) : event := Write (text +:+ Str.nl).

(** The escape character [\033] and the bell [\a]. *)
Definition esc : string := Str.chr 27.
Definition bel : string := Str.chr 7.

(** [time.sleep(0.08)], [time.sleep(0.25)] and [time.sleep(0.8)]. *)
Definition sleep_008 : event := Sleep (VFloat (F64.div_Z 8 100)).
Definition sleep_025 : event := Sleep (VFloat (F64.div_Z 25 100)).
Definition sleep_08 : event := Sleep (VFloat (F64.div_Z 8 10)).

(** The [for] loop over [winsound.Beep], from call [i] on, [n] rounds left:
    the events, and whether the loop ended without an exception. *)
Fixpoint beep_loop (beep_ok : nat -> bool) (freq duration : Z)
    (i n : nat) : list event * bool :=
  match n with
  | O => ([], true)
  | S n' =>
      if beep_ok i then
        let '(es, done) := beep_loop beep_ok freq duration (S i) n' in
        (Beep freq duration :: sleep_008 :: es, done)
      else ([], false)
  end.

(** The last loop of [do_beep]: the bell character, [n] times. *)
Fixpoint bell_loop (n : nat) : list event :=
  match n with
  | O => []
  | S n' => Write bel :: Flush :: sleep_008 :: bell_loop n'
  end.

(** [do_beep(times, freq, duration)]. *)
Definition do_beep (t : terminal) (times freq duration : Z) : list event :=
  let n := Z.to_nat times in
  if Str.is_prefix "win" (sys_platform t) then
    match winsound t with
    | Some beep_ok =>
        let '(es, done) := beep_loop beep_ok freq duration 0 n in
        if done then es else es ++ bell_loop n
    | None => bell_loop n
    end
  else bell_loop n.

(** The rows drawn by [animacao_logo_final]. *)
Definition logo : list string :=
  ["           ███";
   "           ███";
   "           ███";
   "      █████████████";
   "      ███       ███";
   "      ███       ███";
   "      ███       ███"].

(** One round of the loop over [i]: the first [i + 1] rows in yellow, empty
    lines for the others, a pause and, except in the last round, the cursor
    moved up by the number of rows. *)
Definition logo_frame (rows : list string) (i : nat) : list event :=
  map (fun row => print (esc +:+ "[93m" +:+ row +:+ esc +:+ "[0m"))
      (firstn (S i) rows)
  ++ repeat (print "") (length rows - S i)
  ++ [sleep_025]
  ++ (if Nat.eqb i (length rows - 1) then []
      else [Write (esc +:+ "[" +:+ Str.of_Z (Z.of_nat (length rows)) +:+ "A")]).

(** The loop [for i in range(len(logo))]. *)
Definition logo_frames (rows : list string) : list event :=
  flat_map (logo_frame rows) (seq 0 (length rows)).

(** [animacao_logo_final()]. *)
Definition animacao_logo_final (t : terminal) : list event :=
  [System (if String.eqb (os_name t) "nt" then "cls" else "clear");
   Sleep (VInt 2)]
  ++ logo_frames logo
  ++ [sleep_08;
      print (Str.nl +:+ esc +:+ "[92mScript finalizado com sucesso!" +:+ esc +:+
             "[0m" +:+ Str.nl);
      print (esc +:+ "[93mInformações salvas!" +:+ esc +:+ "[0m" +:+ Str.nl)]
  ++ do_beep t 2 1000 200.



(** Line ends in a text, and in what a list of events writes. *)
Fixpoint line_ends (s : string) : nat :=
  match s with
  | "" => O
  | String c t => ((if Ascii.eqb c (ascii_of_nat 10) then 1 else 0) + line_ends t)%nat
  end.

Fixpoint lines_written (es : list event) : nat :=
  match es with
  | [] => O
  | Write text :: r => (line_ends text + lines_written r)%nat
  | _ :: r => lines_written r
  end.

End Term.

(* ================================================================= *)
(** * Keys of the TPM answer *)

(** The keys [get_tpm_info] reads. *)
Definition tpm_keys : list string :=
  ["TpmPresent"; "TpmEnabled"; "TpmReady"; "SpecVersion";
   "ManufacturerVersionFull20"; "ManufacturerIdTxt"].

(* ================================================================= *)
(** * Exhaustive checks *)

(** [P] holds of every integer from [0] up to [n], [n] excluded. *)
Fixpoint all_below (n : nat) (P : Z -> bool) : bool :=
  match n with
  | O => true
  | S n' => P (Z.of_nat n') && all_below n' P
  end.

(* ================================================================= *)
(** * Sample machines *)

Module Samples.

(** The payload of [Get-Tpm | ConvertTo-Json] on a machine with an enabled
    TPM 2.0, and the interpreter routines applied to it. *)
Definition tpm_document : json :=
  JObject [("TpmPresent", JBool true); ("TpmReady", JBool true);
           ("TpmEnabled", JBool true); ("ManufacturerIdTxt", JStr "INTC");
           ("ManufacturerVersionFull20", JStr "600.18.0.0");
           ("SpecVersion", JStr "2.0, 0, 1.38")].

(** A TPM 2.0 that reports ready but not enabled. *)
Definition tpm_ready_only : json :=
  JObject [("TpmPresent", JBool true); ("TpmReady", JBool true);
           ("TpmEnabled", JBool false); ("SpecVersion", JStr "2.0, 0, 1.38")].

Definition tpm_text : string := "{TpmPresent: true, ...}".

Definition json_loads (out : string) : result json :=
  if String.eqb out tpm_text then Ok tpm_document else Raise TypeError.

(** A stand-in for the formatting of floats: the value in hundredths. *)
Definition float_str (x : spec_float) : string :=
  match x with
  | S754_finite s m e =>
      let h := if 0 <=? e then Z.pos m * 2 ^ e * 100
               else F64.round_half_even (Z.pos m * 100) (2 ^ (- e)) in
      (if s then "-" else "") +:+ Str.of_Z (h / 100) +:+ "." +:+
      Str.of_Z (h mod 100 / 10) +:+ Str.of_Z (h mod 10)
  | S754_zero _ => "0.0"
  | S754_infinity s => if s then "-inf" else "inf"
  | S754_nan => "nan"
  end.

Definition json_str (j : json) : string := "{...}".

Definition os_path_join (a b : string) : string := a +:+ Str.chr 92 +:+ b.

Definition os_path_dirname (p : string) : string := "C:\Tools".

(** PowerShell answers of a compatible machine. *)
Definition run_compatible (cmd : string) (timeout : Z) : run_outcome :=
  if String.eqb cmd cmd_tpm then Completed 0 tpm_text ""
  else if String.eqb cmd cmd_secure_boot then Completed 0 ("True" +:+ Str.nl) ""
  else if String.eqb cmd cmd_firmware_cim then Completed 0 ("2" +:+ Str.nl) ""
  else Completed 1 "" "not recognized".

(** Every command runs out of time. *)
Definition run_timeout (cmd : string) (timeout : Z) : run_outcome :=
  RunRaised TimeoutExpired "timed out".

Definition machine (cores : value) (ram_bytes : Z) (disk : result (Z * Z))
    (run : string -> Z -> run_outcome) (exist : string -> bool) : host :=
  {| gethostname := "PC-01";
     getuser := Ok "gabriel";
     environ_USERNAME := Some "gabriel";
     platform_win32_ver_0 := "10";
     platform_system := "Windows";
     platform_release := "10";
     platform_version := "10.0.19045";
     platform_architecture_0 := "64bit";
     platform_processor := "Intel64 Family 6";
     wmi := None;
     psutil_cpu_count := cores;
     psutil_virtual_memory_total := ram_bytes;
     psutil_disk_usage := disk;
     subprocess_run := run;
     os_path_exists := exist;
     sys_frozen := false;
     sys_executable := "C:\Python\python.exe";
     os_getcwd := "C:\Users\gabriel" |}.

(** 8 GB of memory, 4 cores, a 128 GB disk, TPM 2.0, UEFI, Secure Boot. *)
Definition compatible : host :=
  machine (VInt 4) (8 * 1024 ^ 3) (Ok (128 * 1024 ^ 3, 64 * 1024 ^ 3))
          run_compatible (fun _ => false).

(** The same machine when the number of physical cores is undetermined. *)
Definition unknown_cores : host :=
  machine VNone (8 * 1024 ^ 3) (Ok (128 * 1024 ^ 3, 64 * 1024 ^ 3))
          run_compatible (fun _ => false).

(** The same machine with one byte less than 4 GiB of memory. *)
Definition ram_one_byte_short : host :=
  machine (VInt 4) (4 * 1024 ^ 3 - 1) (Ok (128 * 1024 ^ 3, 64 * 1024 ^ 3))
          run_compatible (fun _ => false).

(** The same machine when [psutil.disk_usage] raises. *)
Definition unknown_disk : host :=
  machine (VInt 4) (8 * 1024 ^ 3) (Raise OSError) run_compatible (fun _ => false).

(** PowerShell does not answer in time and the Windows folder holds its
    [Boot\EFI] directory. *)
Definition powershell_timeout : host :=
  machine (VInt 4) (8 * 1024 ^ 3) (Ok (128 * 1024 ^ 3, 64 * 1024 ^ 3))
          run_timeout (String.eqb "C:\Windows\Boot\EFI").

(** No file yet, every path writable. *)
Definition empty_disk : file_system :=
  {| files := ∅; writable := fun _ => true |}.

End Samples.

(** Machines that answer WMI queries. *)
Module Cases.

(** A connection whose only answer is the list of video controllers. *)
Definition wmi_with_gpus (gs : list value) : wmi_connection :=
  {| Win32_ComputerSystem := Ok []; Win32_Processor := Ok [];
     Win32_VideoController := Ok gs |}.

(** The compatible machine with [c] as its WMI module. *)
Definition host_with_wmi (c : option (result wmi_connection)) : host :=
  {| gethostname := "PC-01";
     getuser := Ok "gabriel";
     environ_USERNAME := None;
     platform_win32_ver_0 := "10";
     platform_system := "Windows";
     platform_release := "10";
     platform_version := "10.0.19045";
     platform_architecture_0 := "64bit";
     platform_processor := "Intel64 Family 6";
     wmi := c;
     psutil_cpu_count := VInt 4;
     psutil_virtual_memory_total := 8 * 1024 ^ 3;
     psutil_disk_usage := Ok (128 * 1024 ^ 3, 64 * 1024 ^ 3);
     subprocess_run := Samples.run_compatible;
     os_path_exists := fun _ => false;
     sys_frozen := false;
     sys_executable := "C:\Python\python.exe";
     os_getcwd := "C:\Users\gabriel" |}.

End Cases.

(* ================================================================= *)
(** * Facts about strings *)

Section StringFacts.

Lemma prefix_spec (n h : string) :
  Str.is_prefix n h = true <-> exists post, h = n +:+ post.
Proof.
  revert h. induction n as [|a n IH]; intros h; simpl.
  - split; [intros _; exists h; reflexivity | reflexivity].
  - destruct h as [|b h].
    + split; [discriminate | intros [post H]; discriminate].
    + rewrite andb_true_iff, Ascii.eqb_eq, IH. split.
      * intros [-> [post ->]]. exists post. reflexivity.
      * intros [post H]. injection H as -> ->. split; [reflexivity | now exists post].
Qed.

Lemma contains_spec (n h : string) :
  Str.contains n h = true <-> exists pre post, h = pre +:+ n +:+ post.
Proof.
  induction h as [|b h IH]; simpl.
  - rewrite orb_false_r, prefix_spec. split.
    + intros [post H]. exists "", post. exact H.
    + intros [pre [post H]]. destruct pre; [exists post; exact H | discriminate].
  - rewrite orb_true_iff, prefix_spec, IH. split.
    + intros [[post H]|[pre [post H]]].
      * exists "", post. exact H.
      * exists (String b pre), post. simpl. now rewrite H.
    + intros [pre [post H]]. destruct pre as [|c pre]; simpl in H.
      * left. exists post. exact H.
      * right. exists pre, post. now injection H.
Qed.

Lemma lower_ascii_letters (c : ascii) :
  (Str.lower_ascii c = "t"%char <-> c = "t"%char \/ c = "T"%char) /\
  (Str.lower_ascii c = "r"%char <-> c = "r"%char \/ c = "R"%char) /\
  (Str.lower_ascii c = "u"%char <-> c = "u"%char \/ c = "U"%char) /\
  (Str.lower_ascii c = "e"%char <-> c = "e"%char \/ c = "E"%char) /\
  (Str.lower_ascii c = "f"%char <-> c = "f"%char \/ c = "F"%char) /\
  (Str.lower_ascii c = "a"%char <-> c = "a"%char \/ c = "A"%char) /\
  (Str.lower_ascii c = "l"%char <-> c = "l"%char \/ c = "L"%char) /\
  (Str.lower_ascii c = "s"%char <-> c = "s"%char \/ c = "S"%char).
Proof.
  destruct c as [[] [] [] [] [] [] [] []]; vm_compute; intuition congruence.
Qed.

End StringFacts.

(* ================================================================= *)
(** * Facts about binary64 rounding

    [bytes_to_gb] divides by [2 ^ 30], which is exact, rounds the quotient to
    hundredths and converts the decimal to the nearest double.  The lemmas
    follow the steps of [SFdiv]: the integer quotient of 53 or 54 bits, then
    the rounding of its last bit. *)

Section Binary64Facts.

Import F64.

Lemma digits2_pos_size (p : positive) : digits2_pos p = Pos.size p.
Proof. induction p as [p IH|p IH|]; simpl; congruence. Qed.

Lemma Zdigits2_log2 (m : Z) : 0 < m -> Zdigits2 m = Z.log2 m + 1.
Proof.
  destruct m as [|p|p]; try lia. intros _. simpl. rewrite digits2_pos_size.
  destruct p; simpl; lia.
Qed.

Lemma Zdigits2_bounds (m d : Z) :
  1 <= d -> 2 ^ (d - 1) <= m < 2 ^ d -> Zdigits2 m = d.
Proof.
  intros Hd [Hlo Hhi].
  assert (0 < m) by (pose proof (Z.pow_pos_nonneg 2 (d - 1)); lia).
  rewrite Zdigits2_log2 by assumption.
  rewrite (Z.log2_unique m (d - 1)); [lia | lia |].
  replace (Z.succ (d - 1)) with d by lia. lia.
Qed.

Lemma Zdigits2_range (m : Z) :
  0 < m -> 1 <= Zdigits2 m /\ 2 ^ (Zdigits2 m - 1) <= m < 2 ^ Zdigits2 m.
Proof.
  intros Hm. rewrite Zdigits2_log2 by assumption.
  pose proof (Z.log2_nonneg m). pose proof (Z.log2_spec m Hm).
  replace (Z.log2 m + 1 - 1) with (Z.log2 m) by lia.
  replace (Z.log2 m + 1) with (Z.succ (Z.log2 m)) by lia. lia.
Qed.

Lemma loc_of_shr_record_of_loc (m : Z) (l : location) :
  loc_of_shr_record (shr_record_of_loc m l) = l.
Proof. destruct l as [|[]]; reflexivity. Qed.

Lemma shr_m_of_loc (m : Z) (l : location) : shr_m (shr_record_of_loc m l) = m.
Proof. destruct l as [|[]]; reflexivity. Qed.

Lemma shr_1_m (mrs : shr_record) :
  0 <= shr_m mrs -> shr_m (shr_1 mrs) = shr_m mrs / 2.
Proof.
  destruct mrs as [m r s]. cbn [shr_m]. intros Hm.
  destruct m as [|[p|p|]|]; cbn [shr_1 shr_m]; try lia; try reflexivity.
  - rewrite Pos2Z.inj_xI. apply Z.div_unique with 1; lia.
  - rewrite Pos2Z.inj_xO. apply Z.div_unique with 0; lia.
Qed.

Lemma round_nearest_even_bounds (m : Z) (l : location) :
  m <= round_nearest_even m l <= m + 1.
Proof. destruct l as [|[]]; simpl; try destruct (Z.even m); lia. Qed.

(** A mantissa of 53 bits is kept, one of 54 bits loses its last bit. *)
Lemma shr_fexp_53 (m e : Z) (l : location) :
  2 ^ 52 <= m < 2 ^ 53 -> -1074 <= e ->
  shr_fexp prec emax m e l = (shr_record_of_loc m l, e).
Proof.
  intros Hm He. unfold shr_fexp.
  rewrite (Zdigits2_bounds m 53) by lia.
  unfold fexp, emin, prec, emax.
  replace (Z.max (53 + e - 53) (3 - 1024 - 53) - e) with 0 by lia.
  reflexivity.
Qed.

Lemma shr_fexp_54 (m e : Z) (l : location) :
  2 ^ 53 <= m < 2 ^ 54 -> -1075 <= e ->
  shr_fexp prec emax m e l = (shr_1 (shr_record_of_loc m l), e + 1).
Proof.
  intros Hm He. unfold shr_fexp.
  rewrite (Zdigits2_bounds m 54) by lia.
  unfold fexp, emin, prec, emax.
  replace (Z.max (54 + e - 53) (3 - 1024 - 53) - e) with 1 by lia.
  reflexivity.
Qed.

(** The last step of [binary_round_aux]. *)
Lemma finish_positive (m e : Z) :
  0 < m -> e <= 971 ->
  match m with
  | Z0 => S754_zero false
  | Zpos p => if e <=? emax - prec then S754_finite false p e else S754_infinity false
  | Zneg _ => S754_nan
  end = S754_finite false (Z.to_pos m) e.
Proof.
  intros Hm He. destruct m as [|p|p]; try lia.
  unfold emax, prec. destruct (Z.leb_spec e (1024 - 53)); [reflexivity | lia].
Qed.

(** Rounding a quotient of 53 or 54 bits: the result is finite and at least
    the quotient cut to the bits that are kept. *)
Lemma binary_round_aux_lower (q e : Z) (l : location) :
  2 ^ 52 <= q < 2 ^ 54 -> -1074 <= e <= 969 ->
  exists m2 e2,
    binary_round_aux prec emax false q e l = S754_finite false m2 e2 /\
    e <= e2 <= e + 2 /\ q / 2 ^ (e2 - e) <= Z.pos m2.
Proof.
  intros Hq He. unfold binary_round_aux.
  destruct (Z_lt_le_dec q (2 ^ 53)) as [Hlt|Hge].
  - rewrite shr_fexp_53 by lia. cbv beta iota.
    rewrite shr_m_of_loc, loc_of_shr_record_of_loc.
    pose proof (round_nearest_even_bounds q l) as Hr.
    set (m1 := round_nearest_even q l) in *.
    destruct (Z_lt_le_dec m1 (2 ^ 53)) as [Hlt1|Hge1].
    + rewrite shr_fexp_53 by lia. cbv beta iota. cbn [shr_record_of_loc shr_m].
      rewrite finish_positive by lia.
      exists (Z.to_pos m1), e. split; [reflexivity|]. split; [lia|].
      replace (e - e) with 0 by lia. rewrite Z.pow_0_r, Z.div_1_r, Z2Pos.id; lia.
    + rewrite shr_fexp_54 by lia. cbv beta iota.
      rewrite shr_1_m by (cbn [shr_record_of_loc shr_m]; lia).
      cbn [shr_record_of_loc shr_m].
      assert (2 ^ 52 <= m1 / 2) by (apply Z.div_le_lower_bound; lia).
      rewrite finish_positive by lia.
      exists (Z.to_pos (m1 / 2)), (e + 1). split; [reflexivity|]. split; [lia|].
      replace (e + 1 - e) with 1 by lia. rewrite Z.pow_1_r, Z2Pos.id by lia.
      apply Z.div_le_mono; lia.
  - rewrite shr_fexp_54 by lia. cbv beta iota.
    assert (Hm : shr_m (shr_1 (shr_record_of_loc q l)) = q / 2)
      by (rewrite shr_1_m; rewrite shr_m_of_loc; [reflexivity | lia]).
    set (mrs := shr_1 (shr_record_of_loc q l)) in *.
    assert (2 ^ 52 <= q / 2) by (apply Z.div_le_lower_bound; lia).
    assert (q / 2 < 2 ^ 53) by (apply Z.div_lt_upper_bound; lia).
    pose proof (round_nearest_even_bounds (shr_m mrs) (loc_of_shr_record mrs)) as Hr.
    set (m1 := round_nearest_even (shr_m mrs) (loc_of_shr_record mrs)) in *.
    rewrite Hm in Hr.
    destruct (Z_lt_le_dec m1 (2 ^ 53)) as [Hlt1|Hge1].
    + rewrite shr_fexp_53 by lia. cbv beta iota. cbn [shr_record_of_loc shr_m].
      rewrite finish_positive by lia.
      exists (Z.to_pos m1), (e + 1). split; [reflexivity|]. split; [lia|].
      replace (e + 1 - e) with 1 by lia. rewrite Z.pow_1_r, Z2Pos.id; lia.
    + rewrite shr_fexp_54 by lia. cbv beta iota.
      rewrite shr_1_m by (cbn [shr_record_of_loc shr_m]; lia).
      cbn [shr_record_of_loc shr_m].
      assert (2 ^ 52 <= m1 / 2) by (apply Z.div_le_lower_bound; lia).
      rewrite finish_positive by lia.
      exists (Z.to_pos (m1 / 2)), (e + 1 + 1). split; [reflexivity|]. split; [lia|].
      replace (e + 1 + 1 - e) with 2 by lia. rewrite Z2Pos.id by lia.
      change (2 ^ 2) with (2 * 2). rewrite <- Z.div_div by lia.
      apply Z.div_le_mono; lia.
Qed.

(** An exact quotient of 54 bits whose last bit is zero. *)
Lemma binary_round_aux_exact (q e : Z) :
  2 ^ 53 <= q < 2 ^ 54 -> Z.even q = true -> -1074 <= e <= 969 ->
  binary_round_aux prec emax false q e loc_Exact
  = S754_finite false (Z.to_pos (q / 2)) (e + 1).
Proof.
  intros Hq Hev He. unfold binary_round_aux.
  rewrite shr_fexp_54 by lia. cbv beta iota.
  assert (Hs : shr_1 (shr_record_of_loc q loc_Exact)
               = {| shr_m := q / 2; shr_r := false; shr_s := false |}).
  { destruct q as [|[p|p|]|]; try lia; try discriminate Hev.
    cbn [shr_record_of_loc shr_1 orb]. f_equal.
    rewrite Pos2Z.inj_xO. apply Z.div_unique with 0; lia. }
  rewrite Hs. cbn [shr_m loc_of_shr_record round_nearest_even].
  assert (2 ^ 52 <= q / 2) by (apply Z.div_le_lower_bound; lia).
  assert (q / 2 < 2 ^ 53) by (apply Z.div_lt_upper_bound; lia).
  rewrite shr_fexp_53 by lia. cbv beta iota. cbn [shr_record_of_loc shr_m].
  apply finish_positive; lia.
Qed.

(** The integer quotient [SFdiv] rounds, for two integers. *)
Lemma div_core (a c : positive) :
  let d1 := Zdigits2 (Z.pos a) in
  let d2 := Zdigits2 (Z.pos c) in
  let s := 53 + d2 - d1 in
  0 <= s <= 1074 ->
  SFdiv_core_binary prec emax (Z.pos a) 0 (Z.pos c) 0
  = (Z.pos a * 2 ^ s / Z.pos c, - s,
     new_location (Z.pos c) (Z.pos a * 2 ^ s mod Z.pos c)).
Proof.
  intros d1 d2 s Hs. unfold SFdiv_core_binary.
  fold d1. fold d2.
  replace (Z.min (fexp prec emax (d1 + 0 - (d2 + 0))) (0 - 0)) with (- s)
    by (unfold fexp, emin, prec, emax; lia).
  replace (0 - 0 - - s) with s by lia.
  assert (Hm : match s with
               | 0 => Z.pos a
               | Z.pos _ => Z.shiftl (Z.pos a) s
               | Z.neg _ => 0
               end = Z.pos a * 2 ^ s).
  { destruct s as [|p|p] eqn:E; [lia | | lia].
    rewrite Z.shiftl_mul_pow2 by lia. reflexivity. }
  rewrite Hm.
  unfold Z.div, Z.modulo.
  destruct (Z.div_eucl (Z.pos a * 2 ^ s) (Z.pos c)) as [q r]. reflexivity.
Qed.

(** Bounds on that quotient: it has 53 or 54 bits. *)
Lemma div_core_bits (a c : Z) :
  0 < a -> 0 < c ->
  let s := 53 + Zdigits2 c - Zdigits2 a in
  0 <= s -> 2 ^ 52 <= a * 2 ^ s / c < 2 ^ 54.
Proof.
  intros Ha Hc s Hs.
  destruct (Zdigits2_range a Ha) as (Hd1 & Ha1 & Ha2).
  destruct (Zdigits2_range c Hc) as (Hd2 & Hc1 & Hc2).
  set (d1 := Zdigits2 a) in *. set (d2 := Zdigits2 c) in *.
  assert (P1 : 0 < 2 ^ s) by (apply Z.pow_pos_nonneg; lia).
  assert (E1 : 2 ^ (d1 - 1) * 2 ^ s = 2 ^ 52 * 2 ^ d2).
  { rewrite <- !Z.pow_add_r by lia. f_equal. unfold s. lia. }
  assert (E2 : 2 ^ d1 * 2 ^ s = 2 ^ 54 * 2 ^ (d2 - 1)).
  { rewrite <- !Z.pow_add_r by lia. f_equal. unfold s. lia. }
  split.
  - apply Z.div_le_lower_bound; [lia|]. nia.
  - apply Z.div_lt_upper_bound; [lia|]. nia.
Qed.

(** The quotient of two positive integers is finite and not below the exact
    quotient cut to the bits that are kept. *)
Lemma div_Z_lower (a c : Z) :
  0 < a -> 0 < c ->
  let s := 53 + Zdigits2 c - Zdigits2 a in
  0 <= s <= 1074 ->
  exists m2 e2,
    div_Z a c = S754_finite false m2 e2 /\
    - s <= e2 <= - s + 2 /\
    (a * 2 ^ s / c) / 2 ^ (e2 + s) <= Z.pos m2.
Proof.
  intros Ha Hc s Hs.
  destruct a as [|a|a]; try lia. destruct c as [|c|c]; try lia.
  unfold div_Z, SFdiv.
  change (Z.to_pos (Z.abs (Z.pos a))) with a.
  change (Z.to_pos (Z.abs (Z.pos c))) with c.
  change (xorb (Z.pos a <? 0) (Z.pos c <? 0)) with false.
  rewrite div_core by (fold s; lia). fold s.
  cbv beta iota zeta.
  pose proof (div_core_bits (Z.pos a) (Z.pos c) Ha Hc) as Hq. cbv zeta in Hq.
  fold s in Hq. specialize (Hq ltac:(lia)).
  destruct (binary_round_aux_lower (Z.pos a * 2 ^ s / Z.pos c) (- s)
              (new_location (Z.pos c) (Z.pos a * 2 ^ s mod Z.pos c)) Hq ltac:(lia))
    as (m2 & e2 & -> & He2 & Hm2).
  exists m2, e2. split; [reflexivity|]. split; [lia|].
  replace (e2 + s) with (e2 - - s) by lia. exact Hm2.
Qed.

(** Rounding keeps a quotient above an integer it is not below. *)
Lemma div_Z_ge (a c T : Z) :
  0 < a -> 0 < c -> 0 <= T ->
  2 <= 53 + Zdigits2 c - Zdigits2 a <= 1074 ->
  T * c <= a ->
  ge_Z (div_Z a c) T = true /\ is_infinite (div_Z a c) = false.
Proof.
  intros Ha Hc HT Hs Hge.
  destruct (div_Z_lower a c Ha Hc ltac:(lia)) as (m2 & e2 & -> & He2 & Hm2).
  split; [|reflexivity].
  set (s := 53 + Zdigits2 c - Zdigits2 a) in *.
  assert (P1 : 0 < 2 ^ s) by (apply Z.pow_pos_nonneg; lia).
  assert (P2 : 0 < 2 ^ (e2 + s)) by (apply Z.pow_pos_nonneg; lia).
  assert (P3 : 0 < 2 ^ (- e2)) by (apply Z.pow_pos_nonneg; lia).
  assert (E : 2 ^ (- e2) * 2 ^ (e2 + s) = 2 ^ s).
  { rewrite <- Z.pow_add_r by lia. f_equal. lia. }
  assert (H1 : T * 2 ^ s <= a * 2 ^ s / c).
  { apply Z.div_le_lower_bound; [lia|]. nia. }
  assert (H2 : T * 2 ^ (- e2) <= a * 2 ^ s / c / 2 ^ (e2 + s)).
  { apply Z.div_le_lower_bound; [lia|]. nia. }
  unfold ge_Z.
  destruct (Z.leb_spec 0 e2) as [H0|H0].
  - assert (e2 = 0) as -> by lia. change (- 0) with 0 in H2.
    rewrite Z.pow_0_r in *. apply Z.leb_le. lia.
  - apply Z.leb_le. lia.
Qed.

(** Division by [2 ^ 30] is exact below [2 ^ 53]. *)
Lemma div_Z_gib_exact (b : Z) :
  0 < b < 2 ^ 53 ->
  let d := Zdigits2 b in
  div_Z b 1073741824 = S754_finite false (Z.to_pos (b * 2 ^ (53 - d))) (d - 83).
Proof.
  intros Hb d.
  destruct (Zdigits2_range b ltac:(lia)) as (Hd & Hlo & Hhi). fold d in Hd, Hlo, Hhi.
  assert (d <= 53).
  { destruct (Z_le_gt_dec d 53) as [|Hgt]; [assumption|].
    assert (2 ^ 53 <= 2 ^ (d - 1)) by (apply Z.pow_le_mono_r; lia). lia. }
  destruct b as [|b|b]; try lia.
  unfold div_Z, SFdiv.
  change (Z.to_pos (Z.abs (Z.pos b))) with b.
  change (Z.to_pos (Z.abs 1073741824)) with 1073741824%positive.
  change (xorb (Z.pos b <? 0) (1073741824 <? 0)) with false.
  assert (Hd2 : Zdigits2 1073741824 = 31) by reflexivity.
  rewrite div_core by (rewrite Hd2; fold d; lia).
  rewrite Hd2. fold d. cbv beta iota zeta.
  assert (P : 0 < 2 ^ (54 - d)) by (apply Z.pow_pos_nonneg; lia).
  assert (E : Z.pos b * 2 ^ (53 + 31 - d) = Z.pos b * 2 ^ (54 - d) * 1073741824).
  { change 1073741824 with (2 ^ 30). rewrite <- Z.mul_assoc, <- Z.pow_add_r by lia.
    do 2 f_equal. lia. }
  rewrite E, Z.div_mul, Z.mod_mul by lia.
  change (new_location 1073741824 0) with loc_Exact.
  assert (E2 : Z.pos b * 2 ^ (54 - d) = 2 * (Z.pos b * 2 ^ (53 - d))).
  { replace (54 - d) with (1 + (53 - d)) by lia. rewrite Z.pow_add_r by lia.
    change (2 ^ 1) with 2. lia. }
  assert (E3 : 2 ^ (d - 1) * 2 ^ (53 - d) = 2 ^ 52).
  { rewrite <- Z.pow_add_r by lia. f_equal. lia. }
  assert (E4 : 2 ^ d * 2 ^ (53 - d) = 2 ^ 53).
  { rewrite <- Z.pow_add_r by lia. f_equal. lia. }
  assert (P' : 0 < 2 ^ (53 - d)) by (apply Z.pow_pos_nonneg; lia).
  rewrite binary_round_aux_exact.
  - f_equal; [|lia]. f_equal. rewrite E2, Z.mul_comm, Z.div_mul; lia.
  - rewrite E2. nia.
  - rewrite E2, Z.even_mul. reflexivity.
  - lia.
Qed.

Lemma round_half_even_scale (a c t : Z) :
  0 < c -> 0 < t -> round_half_even (a * t) (c * t) = round_half_even a c.
Proof.
  intros Hc Ht. unfold round_half_even.
  rewrite Z.div_mul_cancel_r, Zmult_mod_distr_r by lia.
  replace (2 * (a mod c * t)) with (2 * (a mod c) * t) by lia.
  rewrite <- Zmult_compare_compat_r by lia. reflexivity.
Qed.

Lemma all_below_spec (n : nat) (P : Z -> bool) :
  all_below n P = true -> forall k, 0 <= k < Z.of_nat n -> P k = true.
Proof.
  induction n as [|n IH]; simpl; intros H k Hk; [lia|].
  apply andb_true_iff in H. destruct H as [H1 H2].
  destruct (Z.eq_dec k (Z.of_nat n)) as [->|Hne]; [assumption|].
  apply IH; [assumption | lia].
Qed.

Lemma Zdigits2_le (m n : Z) : 0 < m < 2 ^ n -> Zdigits2 m <= n.
Proof.
  intros Hm. destruct (Zdigits2_range m ltac:(lia)) as (Hd & Hlo & _).
  destruct (Z_le_gt_dec (Zdigits2 m) n) as [|Hgt]; [assumption|].
  assert (2 ^ n <= 2 ^ (Zdigits2 m - 1)) by (apply Z.pow_le_mono_r; lia). lia.
Qed.

(** The double nearest to [k / 100] against an integer [T], once the
    hundredths below [100 * T] have been checked one by one. *)
Lemma ge_hundredths (k T : Z) :
  0 <= k < 2 ^ 58 -> 0 < T ->
  all_below (Z.to_nat (100 * T)) (fun k => negb (ge_Z (div_Z k 100) T)) = true ->
  ge_Z (div_Z k 100) T = (100 * T <=? k) /\ is_infinite (div_Z k 100) = false.
Proof.
  intros Hk HT Hbelow.
  destruct (Z.leb_spec (100 * T) k) as [Hge|Hlt].
  - assert (Hd : Zdigits2 100 = 7) by reflexivity.
    pose proof (Zdigits2_le k 58 ltac:(lia)).
    destruct (Zdigits2_range k ltac:(lia)) as (Hd1 & _).
    apply div_Z_ge; try lia.
  - pose proof (all_below_spec _ _ Hbelow k ltac:(lia)) as H.
    apply negb_true_iff in H. split; [exact H|].
    destruct k as [|k|k]; [reflexivity | | lia].
    assert (Hd : Zdigits2 100 = 7) by reflexivity.
    pose proof (Zdigits2_le (Z.pos k) 58 ltac:(lia)).
    destruct (Zdigits2_range (Z.pos k) ltac:(lia)) as (Hd1 & _).
    destruct (div_Z_lower (Z.pos k) 100 ltac:(lia) ltac:(lia) ltac:(lia))
      as (m2 & e2 & -> & _). reflexivity.
Qed.

Lemma hundredths_below_4 :
  all_below (Z.to_nat (100 * 4)) (fun k => negb (ge_Z (div_Z k 100) 4)) = true.
Proof. vm_compute. reflexivity. Qed.

Lemma hundredths_below_64 :
  all_below (Z.to_nat (100 * 64)) (fun k => negb (ge_Z (div_Z k 100) 64)) = true.
Proof. vm_compute. reflexivity. Qed.

Lemma round_half_even_bounds (a c : Z) :
  0 <= a -> 0 < c -> a / c <= round_half_even a c <= a / c + 1.
Proof.
  intros Ha Hc. unfold round_half_even.
  destruct (2 * (a mod c) ?= c); try destruct (Z.even (a / c)); lia.
Qed.

(** [bytes_to_gb] below 8 PiB: the double nearest to the hundredths of GB. *)
Lemma bytes_to_gb_hundredths (b : Z) :
  0 <= b < 2 ^ 53 ->
  bytes_to_gb (VInt b) =
  VFloat (div_Z (round_half_even (b * 100) 1073741824) 100).
Proof.
  intros Hb. destruct (Z.eq_dec b 0) as [->|Hne]; [reflexivity|].
  unfold bytes_to_gb, py_truediv, int_truediv.
  change (1024 ^ 3) with 1073741824. cbn [Z.eqb].
  rewrite div_Z_gib_exact by lia. cbn [is_infinite bind].
  destruct (Zdigits2_range b ltac:(lia)) as (Hd1 & Hlo & Hhi).
  pose proof (Zdigits2_le b 53 ltac:(lia)) as Hd.
  set (d := Zdigits2 b) in *.
  assert (P : 0 < 2 ^ (53 - d)) by (apply Z.pow_pos_nonneg; lia).
  unfold round_ndigits.
  destruct (Z.leb_spec 0 (d - 83)) as [|_]; [lia|].
  rewrite Z2Pos.id by nia.
  change (10 ^ 2) with 100.
  replace (b * 2 ^ (53 - d) * 100) with (b * 100 * 2 ^ (53 - d)) by lia.
  replace (2 ^ (- (d - 83))) with (1073741824 * 2 ^ (53 - d)).
  2:{ change 1073741824 with (2 ^ 30). rewrite <- Z.pow_add_r by lia. f_equal. lia. }
  rewrite round_half_even_scale by lia.
  pose proof (round_half_even_bounds (b * 100) 1073741824 ltac:(lia) ltac:(lia)) as Hk.
  assert (0 <= b * 100 / 1073741824 < 2 ^ 31).
  { split; [apply Z.div_pos; lia|]. apply Z.div_lt_upper_bound; lia. }
  remember (round_half_even (b * 100) 1073741824) as k eqn:Ek.
  destruct k as [|k|k]; [reflexivity | | lia].
  change (SFdiv prec emax (S754_finite false k 0)
            (S754_finite false (Z.to_pos 100) 0))
    with (div_Z (Z.pos k) 100).
  assert (Hd7 : Zdigits2 100 = 7) by reflexivity.
  pose proof (Zdigits2_le (Z.pos k) 58 ltac:(lia)).
  destruct (Zdigits2_range (Z.pos k) ltac:(lia)) as (Hk1 & _).
  destruct (div_Z_lower (Z.pos k) 100 ltac:(lia) ltac:(lia) ltac:(lia))
    as (m2 & e2 & -> & _). reflexivity.
Qed.

(** The comparison of [bytes_to_gb] with an integer, on the hundredths. *)
Lemma bytes_to_gb_ge (b T : Z) :
  0 <= b < 2 ^ 53 -> 0 < T ->
  all_below (Z.to_nat (100 * T)) (fun k => negb (ge_Z (div_Z k 100) T)) = true ->
  py_ge (bytes_to_gb (VInt b)) T
  = Ok (100 * T <=? round_half_even (b * 100) 1073741824).
Proof.
  intros Hb HT Hbelow. rewrite bytes_to_gb_hundredths by assumption.
  unfold py_ge. f_equal.
  pose proof (round_half_even_bounds (b * 100) 1073741824 ltac:(lia) ltac:(lia)) as Hk.
  assert (0 <= b * 100 / 1073741824 < 2 ^ 31).
  { split; [apply Z.div_pos; lia|]. apply Z.div_lt_upper_bound; lia. }
  now destruct (ge_hundredths (round_half_even (b * 100) 1073741824) T
                  ltac:(lia) HT Hbelow) as [-> _].
Qed.

(** Turns a threshold on the hundredths of GB into a threshold on bytes. *)
Ltac hundredths_to_bytes b :=
  unfold round_half_even;
  destruct (Z.compare_spec (2 * ((b * 100) mod 1073741824)) 1073741824);
  try destruct (Z.even (b * 100 / 1073741824));
  match goal with
  | |- (?x <=? ?y) = (?n <=? b) =>
      destruct (Z.leb_spec n b); [apply Z.leb_le | apply Z.leb_gt];
      Z.div_mod_to_equations; lia
  end.

(** The two thresholds in bytes. *)
Lemma ram_threshold_bytes (b : Z) :
  0 <= b < 2 ^ 53 ->
  check_ram (bytes_to_gb (VInt b)) = Ok (4289598587 <=? b).
Proof.
  intros Hb. unfold check_ram.
  rewrite (bytes_to_gb_ge b 4 Hb ltac:(lia) hundredths_below_4).
  f_equal. hundredths_to_bytes b.
Qed.

Lemma disk_threshold_bytes (b : Z) :
  0 <= b < 2 ^ 53 ->
  check_disco (bytes_to_gb (VInt b)) = Ok (68714108027 <=? b).
Proof.
  intros Hb. unfold check_disco.
  rewrite (bytes_to_gb_hundredths b Hb) at 1. cbn [isinstance_int_float].
  rewrite (bytes_to_gb_ge b 64 Hb ltac:(lia) hundredths_below_64).
  f_equal. hundredths_to_bytes b.
Qed.

End Binary64Facts.

(* ================================================================= *)
(** * The Secure Boot and architecture categories *)

(** The sixteen spellings of "true". *)
Lemma lower_is_true (s : string) :
  Str.lower s = "true" <->
  exists c1 c2 c3 c4,
    s = String c1 (String c2 (String c3 (String c4 ""))) /\
    (c1 = "t"%char \/ c1 = "T"%char) /\ (c2 = "r"%char \/ c2 = "R"%char) /\
    (c3 = "u"%char \/ c3 = "U"%char) /\ (c4 = "e"%char \/ c4 = "E"%char).
Proof.
  split.
  - destruct s as [|c1 [|c2 [|c3 [|c4 [|c5 s]]]]]; simpl; try discriminate.
    intros H. injection H as H1 H2 H3 H4.
    exists c1, c2, c3, c4. split; [reflexivity|].
    destruct (lower_ascii_letters c1) as (T & _).
    destruct (lower_ascii_letters c2) as (_ & R & _).
    destruct (lower_ascii_letters c3) as (_ & _ & U & _).
    destruct (lower_ascii_letters c4) as (_ & _ & _ & E & _).
    tauto.
  - intros (c1 & c2 & c3 & c4 & -> & [-> | ->] & [-> | ->] & [-> | ->] & [-> | ->]);
      reflexivity.
Qed.

(** The thirty-two spellings of "false". *)
Lemma lower_is_false (s : string) :
  Str.lower s = "false" ->
  exists c1 c2 c3 c4 c5,
    s = String c1 (String c2 (String c3 (String c4 (String c5 "")))) /\
    (c1 = "f"%char \/ c1 = "F"%char) /\ (c2 = "a"%char \/ c2 = "A"%char) /\
    (c3 = "l"%char \/ c3 = "L"%char) /\ (c4 = "s"%char \/ c4 = "S"%char) /\
    (c5 = "e"%char \/ c5 = "E"%char).
Proof.
  destruct s as [|c1 [|c2 [|c3 [|c4 [|c5 [|c6 s]]]]]]; simpl; try discriminate.
  intros H. injection H as H1 H2 H3 H4 H5.
  exists c1, c2, c3, c4, c5. split; [reflexivity|].
  destruct (lower_ascii_letters c1) as (_ & _ & _ & _ & F & _).
  destruct (lower_ascii_letters c2) as (_ & _ & _ & _ & _ & A & _).
  destruct (lower_ascii_letters c3) as (_ & _ & _ & _ & _ & _ & L & _).
  destruct (lower_ascii_letters c4) as (_ & _ & _ & _ & _ & _ & _ & S).
  destruct (lower_ascii_letters c5) as (_ & _ & _ & E & _).
  tauto.
Qed.

(** [out.title()] of an answer [get_secure_boot_status] accepts. *)
Lemma title_of_true (out : string) :
  Str.lower out = "true" -> Str.title out = "True".
Proof.
  rewrite lower_is_true.
  intros (c1 & c2 & c3 & c4 & -> & [-> | ->] & [-> | ->] & [-> | ->] & [-> | ->]);
    reflexivity.
Qed.

Lemma title_of_false (out : string) :
  Str.lower out = "false" -> Str.title out = "False".
Proof.
  intros H. apply lower_is_false in H.
  destruct H as (c1 & c2 & c3 & c4 & c5 & -> & [-> | ->] & [-> | ->] & [-> | ->]
                 & [-> | ->] & [-> | ->]); reflexivity.
Qed.

(** The three values of [get_secure_boot_status]. *)
Lemma get_secure_boot_status_cases (w : host) :
  let '(ok, out) := safe_run w cmd_secure_boot safe_run_default_timeout in
  (ok = true /\ Str.lower out = "true" /\ get_secure_boot_status w = "True") \/
  (ok = true /\ Str.lower out = "false" /\ get_secure_boot_status w = "False") \/
  ((ok = false \/ (Str.lower out <> "true" /\ Str.lower out <> "false")) /\
   get_secure_boot_status w = "Indisponível").
Proof.
  unfold get_secure_boot_status.
  destruct (safe_run w cmd_secure_boot safe_run_default_timeout) as [ok out].
  destruct ok; simpl.
  - destruct (String.eqb_spec (Str.lower out) "true") as [Ht|Ht]; simpl.
    + left. auto using title_of_true.
    + destruct (String.eqb_spec (Str.lower out) "false") as [Hf|Hf]; simpl.
      * right; left. auto using title_of_false.
      * right; right. auto.
  - right; right. auto.
Qed.

(** C6: the SecureBoot category passes exactly on the spellings of "true"
    in any letter case: "True", "TRUE" and "true" pass, "Unavailable" and the
    code's own sentinel "Indisponível" fail; on a machine, it passes exactly
    when the PowerShell command succeeds and answers "true" in any case. *)
Theorem C6_secure_boot_case_insensitive :
  (forall s : string,
     check_secure_boot s = true <->
     exists c1 c2 c3 c4,
       s = String c1 (String c2 (String c3 (String c4 ""))) /\
       (c1 = "t"%char \/ c1 = "T"%char) /\ (c2 = "r"%char \/ c2 = "R"%char) /\
       (c3 = "u"%char \/ c3 = "U"%char) /\ (c4 = "e"%char \/ c4 = "E"%char)) /\
  check_secure_boot "True" = true /\
  check_secure_boot "TRUE" = true /\
  check_secure_boot "true" = true /\
  check_secure_boot "Unavailable" = false /\
  check_secure_boot "Indisponível" = false /\
  (forall w : host,
     check_secure_boot (get_secure_boot_status w) = true <->
     exists out, safe_run w cmd_secure_boot safe_run_default_timeout = (true, out) /\
                 Str.lower out = "true").
Proof.
  split; [|repeat split; try reflexivity].
  - intros s. unfold check_secure_boot. rewrite String.eqb_eq. apply lower_is_true.
  - intros H. pose proof (get_secure_boot_status_cases w) as C.
    destruct (safe_run w cmd_secure_boot safe_run_default_timeout) as [ok out].
    destruct C as [(-> & Ht & _) | [(_ & _ & E) | (_ & E)]].
    + exists out. auto.
    + rewrite E in H. discriminate H.
    + rewrite E in H. discriminate H.
  - intros (out & Hrun & Ht). pose proof (get_secure_boot_status_cases w) as C.
    rewrite Hrun in C.
    destruct C as [(_ & _ & E) | [(_ & Hf & _) | ([Hk | [Hn _]] & _)]].
    + rewrite E. reflexivity.
    + congruence.
    + discriminate Hk.
    + contradiction.
Qed.

(** C7: the Architecture category passes exactly when the label holds the
    text "64" at some position: "64-bit" passes, "32-bit" and the empty
    label fail; the label is the first component of
    [platform.architecture()]. *)
Theorem C7_architecture_substring :
  (forall arch : string,
     check_arquitetura arch = true <->
     exists pre post, arch = pre +:+ "64" +:+ post) /\
  check_arquitetura "64-bit" = true /\
  check_arquitetura "32-bit" = false /\
  check_arquitetura "" = false /\
  (forall json_loads (w : host),
     arch (probe json_loads w) = platform_architecture_0 w).
Proof.
  split; [|repeat split; reflexivity].
  intros arch. apply contains_spec.
Qed.

(* ================================================================= *)
(** * The verdict of [build_report] *)

Lemma py_ge_number (v : value) (n : Z) :
  isinstance_int_float v = true -> exists b, py_ge v n = Ok b.
Proof. destruct v; simpl; intros H; try discriminate H; eauto. Qed.

Lemma py_ge_not_number (v : value) (n : Z) :
  isinstance_int_float v = false -> py_ge v n = Raise TypeError.
Proof. destruct v; simpl; intros H; try discriminate H; reflexivity. Qed.

Lemma check_disco_total (v : value) : exists b, check_disco v = Ok b.
Proof.
  unfold check_disco. destruct (isinstance_int_float v) eqn:E.
  - now apply py_ge_number.
  - eauto.
Qed.

(** With numbers for memory and cores, the dict is built. *)
Lemma checks_total (f : facts) :
  isinstance_int_float (ram_gb f) = true ->
  isinstance_int_float (cpu_cores f) = true ->
  exists ram cpu disco,
    check_ram (ram_gb f) = Ok ram /\
    check_cpu (cpu_cores f) = Ok cpu /\
    check_disco (disk_total f) = Ok disco /\
    checks f = Ok [("RAM", ram); ("CPU", cpu); ("Disco", disco);
                   ("TPM", check_tpm (tpm f));
                   ("Firmware", check_firmware (firmware f));
                   ("SecureBoot", check_secure_boot (secure_boot f));
                   ("Arquitetura", check_arquitetura (arch f))].
Proof.
  intros Hram Hcpu.
  destruct (py_ge_number _ 4 Hram) as [ram Eram].
  destruct (py_ge_number _ 2 Hcpu) as [cpu Ecpu].
  destruct (check_disco_total (disk_total f)) as [disco Edisco].
  exists ram, cpu, disco. repeat split; try assumption.
  unfold checks, check_ram, check_cpu. now rewrite Eram, Ecpu, Edisco.
Qed.

(** C2: when memory and core count are numbers, [checks] holds the seven
    categories in the fixed order, [fully_compatible] is the conjunction of
    the seven booleans, the list of the summary names exactly the categories
    that are false, in that order, and the report ends with the summary built
    from them. *)
Theorem C2_verdict_is_conjunction (f : facts) :
  isinstance_int_float (ram_gb f) = true ->
  isinstance_int_float (cpu_cores f) = true ->
  exists ram cpu disco cs,
    check_ram (ram_gb f) = Ok ram /\
    check_cpu (cpu_cores f) = Ok cpu /\
    check_disco (disk_total f) = Ok disco /\
    checks f = Ok cs /\
    map fst cs = category_names /\
    map snd cs = [ram; cpu; disco; check_tpm (tpm f); check_firmware (firmware f);
                  check_secure_boot (secure_boot f); check_arquitetura (arch f)] /\
    fully_compatible cs =
      ram && cpu && disco && check_tpm (tpm f) && check_firmware (firmware f) &&
      check_secure_boot (secure_boot f) && check_arquitetura (arch f) /\
    faltando cs =
      failing ram cpu disco (check_tpm (tpm f)) (check_firmware (firmware f))
              (check_secure_boot (secure_boot f)) (check_arquitetura (arch f)) /\
    (forall k, In k (faltando cs) <-> In (k, false) cs) /\
    (fully_compatible cs = true <-> faltando cs = []) /\
    forall float_str json_str debug,
      exists body,
        report_lines float_str json_str f debug =
        Ok (body ++ lines_summary cs ++ lines_debug json_str f debug).
Proof.
  intros Hram Hcpu.
  destruct (py_ge_number _ 4 Hram) as [ram Eram].
  destruct (py_ge_number _ 2 Hcpu) as [cpu Ecpu].
  destruct (check_disco_total (disk_total f)) as [disco Edisco].
  exists ram, cpu, disco.
  eexists. split; [exact Eram|]. split; [exact Ecpu|]. split; [exact Edisco|].
  split; [unfold checks, check_ram, check_cpu; rewrite Eram, Ecpu, Edisco; reflexivity|].
  split; [reflexivity|]. split; [reflexivity|].
  set (t := check_tpm (tpm f)). set (fw := check_firmware (firmware f)).
  set (sb := check_secure_boot (secure_boot f)). set (aq := check_arquitetura (arch f)).
  split; [simpl; now rewrite andb_true_r, !andb_assoc|].
  split; [destruct ram, cpu, disco, t, fw, sb, aq; reflexivity|].
  split.
  { intros k. unfold faltando. rewrite in_map_iff. split.
    - intros [[k' b] [<- Hin]]. apply filter_In in Hin. destruct Hin as [Hin Hb].
      simpl in *. destruct b; [discriminate Hb | exact Hin].
    - intros Hin. exists (k, false). split; [reflexivity|].
      apply filter_In. split; [exact Hin | reflexivity]. }
  split; [destruct ram, cpu, disco, t, fw, sb, aq; cbv; split; congruence|].
  intros float_str json_str debug. unfold report_lines, checks, check_ram, check_cpu.
  rewrite Eram, Ecpu, Edisco. simpl.
  unfold lines_hardware. rewrite Eram, Ecpu. simpl.
  assert (exists d, lines_disk float_str f = Ok d) as [d Ed].
  { unfold lines_disk. unfold check_disco in Edisco.
    destruct (isinstance_int_float (disk_total f)); [rewrite Edisco|]; simpl; eauto. }
  rewrite Ed. simpl.
  eexists (_ :: _ :: _ :: _ :: _ :: _ :: _ :: _ :: _ :: _ :: _ ::
           d ++ [_] ++ lines_security f).
  simpl. rewrite <- !app_assoc. reflexivity.
Qed.

(** The machine whose disk cannot be read: only "Disco" fails. *)
Lemma C2_verdict_is_conjunction_witness :
  let f := probe Samples.json_loads Samples.unknown_disk in
  isinstance_int_float (ram_gb f) = true /\
  isinstance_int_float (cpu_cores f) = true /\
  exists cs, checks f = Ok cs /\ fully_compatible cs = false /\
             faltando cs = ["Disco"].
Proof.
  intros f. split; [reflexivity|]. split; [reflexivity|].
  destruct (C2_verdict_is_conjunction f eq_refl eq_refl)
    as (ram & cpu & disco & cs & Eram & Ecpu & Edisco & Ecs & _ & _ & Hall & Hfalt & _).
  exists cs. split; [exact Ecs|].
  vm_compute in Eram, Ecpu, Edisco.
  injection Eram as <-. injection Ecpu as <-. injection Edisco as <-.
  split; [rewrite Hall | rewrite Hfalt]; reflexivity.
Defined.

(** The two end-to-end scenarios: a compatible machine, and one with 2 GB of
    memory and no TPM 2.0. *)
Example scenario_compatible :
  let f := probe Samples.json_loads Samples.compatible in
  exists cs, checks f = Ok cs /\ fully_compatible cs = true /\ faltando cs = [].
Proof. eexists. repeat split; reflexivity. Qed.

Example scenario_ram_and_tpm :
  let w := Samples.machine (VInt 4) (2 * 1024 ^ 3)
             (Ok (128 * 1024 ^ 3, 64 * 1024 ^ 3)) Samples.run_compatible
             (fun _ => false) in
  let f := probe (fun _ => Ok (JObject [("TpmEnabled", JBool true)])) w in
  exists cs, checks f = Ok cs /\ fully_compatible cs = false /\
             faltando cs = ["RAM"; "TPM"].
Proof. eexists. repeat split; reflexivity. Qed.

(* ================================================================= *)
(** * Unknown values *)

(** Either comparison of [checks] raises on a value that is no number. *)
Lemma checks_raise (f : facts) :
  isinstance_int_float (ram_gb f) = false \/
  isinstance_int_float (cpu_cores f) = false ->
  checks f = Raise TypeError.
Proof.
  unfold checks, check_ram, check_cpu. intros [H|H].
  - now rewrite py_ge_not_number.
  - destruct (isinstance_int_float (ram_gb f)) eqn:E.
    + destruct (py_ge_number _ 4 E) as [b ->]. simpl. now rewrite py_ge_not_number.
    + now rewrite py_ge_not_number.
Qed.

Lemma report_lines_raise float_str json_str (f : facts) (debug : bool) :
  isinstance_int_float (ram_gb f) = false \/
  isinstance_int_float (cpu_cores f) = false ->
  report_lines float_str json_str f debug = Raise TypeError.
Proof.
  intros H. unfold report_lines. now rewrite checks_raise.
Qed.

(** C1 (the code departs from it): on a machine whose number of physical
    cores is undetermined, [get_cpu_info] returns [None] for the cores and
    [build_report] raises [TypeError] at [cpu_cores >= 2] instead of
    returning a verdict whose CPU category is false. *)
Theorem C1_unknown_cores_raise :
  forall json_loads float_str json_str debug,
    cpu_cores (probe json_loads Samples.unknown_cores) = VNone /\
    check_cpu VNone = Raise TypeError /\
    check_ram (bytes_to_gb VNone) = Raise TypeError /\
    build_report json_loads float_str json_str Samples.unknown_cores debug
      = Raise TypeError.
Proof.
  intros json_loads float_str json_str debug.
  split; [reflexivity|]. split; [reflexivity|]. split; [reflexivity|].
  unfold build_report. rewrite report_lines_raise; [reflexivity|].
  right. reflexivity.
Qed.

(* ================================================================= *)
(** * The Disk category *)

(** C5: the Disk category never raises; it passes exactly when [disk_total]
    is a number that is at least 64, and is false on the sentinel
    "Desconhecido" that [get_disk_info] returns when the disk cannot be
    read; otherwise [disk_total] is the size in GB computed by
    [bytes_to_gb], rounded to two decimals, so that a disk below 2^53 bytes
    passes from 68714108027 bytes on. *)
Theorem C5_disk_category :
  (forall v : value,
     exists b, check_disco v = Ok b /\
               (b = true <-> isinstance_int_float v = true /\ py_ge v 64 = Ok true)) /\
  (forall s : string, check_disco (VStr s) = Ok false) /\
  check_disco VNone = Ok false /\
  (forall z : Z, check_disco (VInt z) = Ok (64 <=? z)) /\
  (forall x : spec_float, check_disco (VFloat x) = Ok (F64.ge_Z x 64)) /\
  (forall json_loads (w : host),
     disk_total (probe json_loads w) =
       match psutil_disk_usage w with
       | Ok (total, _) => bytes_to_gb (VInt total)
       | Raise _ => VStr "Desconhecido"
       end) /\
  (forall json_loads (w : host),
     check_disco (disk_total (probe json_loads w)) =
       Ok match psutil_disk_usage w with
          | Ok (total, _) =>
              match bytes_to_gb (VInt total) with
              | VFloat gb => F64.ge_Z gb 64
              | _ => false
              end
          | Raise _ => false
          end) /\
  (forall b : Z,
     0 <= b < 2 ^ 53 ->
     check_disco (bytes_to_gb (VInt b)) = Ok (68714108027 <=? b)).
Proof.
  split; [|split; [|split; [|split; [|split; [|split; [|split]]]]]];
    try reflexivity; try apply disk_threshold_bytes.
  - intros v. unfold check_disco. destruct v as [|b|z|x|s]; simpl; eexists;
      (split; [reflexivity|]); split; try tauto; try discriminate;
      try (intros H; split; [reflexivity | now rewrite H]);
      try (intros [_ H]; now injection H).
  - intros json_loads w. simpl. unfold get_disk_info.
    destruct (psutil_disk_usage w) as [[total free]|e]; reflexivity.
  - intros json_loads w. simpl. unfold get_disk_info.
    destruct (psutil_disk_usage w) as [[total free]|e]; simpl; [|reflexivity].
    unfold bytes_to_gb.
    destruct (let* q := py_truediv (VInt total) (1024 ^ 3) in
              let* r := F64.round_ndigits q 2 in Ok (VFloat r)) as [v|e] eqn:E;
      simpl; [|reflexivity].
    destruct (py_truediv (VInt total) (1024 ^ 3)) as [q|]; simpl in E; [|discriminate E].
    destruct (F64.round_ndigits q 2) as [r|]; simpl in E; [|discriminate E].
    injection E as <-. reflexivity.
Qed.

(* ================================================================= *)
(** * The Disk line of the report *)

Lemma faltando_names_disco (ram cpu t fw sb aq : bool) :
  Str.contains "Disco" (Str.join ", " (failing ram cpu false t fw sb aq)) = true.
Proof. destruct ram, cpu, t, fw, sb, aq; reflexivity. Qed.

(** C10: when [disk_total] is no number (the sentinel of [get_disk_info]),
    the Hardware section is made of its heading and the memory, CPU and GPU
    lines, none of which is a Disk line, while the summary reports the
    machine as not compatible and names "Disco" among the failing
    categories. *)
Theorem C10_unknown_disk_has_no_line
    float_str json_str (f : facts) (debug : bool) :
  isinstance_int_float (disk_total f) = false ->
  isinstance_int_float (ram_gb f) = true ->
  isinstance_int_float (cpu_cores f) = true ->
  exists ram cpu cs body,
    let hardware :=
      ["2. Hardware:" +:+ Str.nl;
       "- Memória RAM: " +:+ value_str float_str (ram_gb f) +:+ " GB — " +:+
         check_requirement ram +:+ " (≥ 4 GB)";
       "- CPU: " +:+ cpu_name f +:+ " (" +:+ value_str float_str (cpu_cores f) +:+
         " núcleos) — " +:+ check_requirement cpu;
       "- GPU: " +:+ gpu f +:+ " — " +:+
         check_requirement (negb (String.eqb (gpu f) "Desconhecido")) +:+ Str.nl] in
    lines_hardware float_str f = Ok hardware /\
    Forall (fun line => Str.is_prefix "- Disco" line = false) hardware /\
    checks f = Ok cs /\
    fully_compatible cs = false /\
    In "Disco" (faltando cs) /\
    Str.contains "Disco" (Str.join ", " (faltando cs)) = true /\
    report_lines float_str json_str f debug =
      Ok (body ++ hardware ++ lines_security f ++
          ["Resumo Geral:";
           "⚠️ Este computador NÃO atende a todos os requisitos do Windows 11.";
           "Itens não compatíveis: " +:+ Str.join ", " (faltando cs)] ++
          lines_debug json_str f debug).
Proof.
  intros Hdisk Hram Hcpu.
  destruct (checks_total f Hram Hcpu) as (ram & cpu & disco & Eram & Ecpu & Edisco & Ecs).
  assert (disco = false) as ->.
  { unfold check_disco in Edisco. rewrite Hdisk in Edisco. now injection Edisco. }
  assert (lines_disk float_str f = Ok []) as Ed.
  { unfold lines_disk. now rewrite Hdisk. }
  revert Ecs.
  generalize (check_tpm (tpm f)) (check_firmware (firmware f))
             (check_secure_boot (secure_boot f)) (check_arquitetura (arch f)).
  intros t fw sb aq Ecs.
  assert (faltando [("RAM", ram); ("CPU", cpu); ("Disco", false); ("TPM", t);
                    ("Firmware", fw); ("SecureBoot", sb); ("Arquitetura", aq)]
          = failing ram cpu false t fw sb aq) as Hf
    by (destruct ram, cpu, t, fw, sb, aq; reflexivity).
  assert (fully_compatible [("RAM", ram); ("CPU", cpu); ("Disco", false); ("TPM", t);
                    ("Firmware", fw); ("SecureBoot", sb); ("Arquitetura", aq)]
          = false) as Hall
    by (destruct ram, cpu; reflexivity).
  unfold check_ram in Eram. unfold check_cpu in Ecpu.
  exists ram, cpu. eexists.
  exists (["Relatório de Compatibilidade com Windows 11 + Simulação Visual" +:+ Str.nl]
          ++ lines_identification float_str f).
  cbv zeta.
  split; [unfold lines_hardware; rewrite Eram, Ecpu, Ed; reflexivity|].
  split; [repeat constructor|].
  split; [exact Ecs|].
  split; [exact Hall|].
  split; [rewrite Hf; destruct ram, cpu; simpl; auto|].
  split; [rewrite Hf; apply faltando_names_disco|].
  unfold report_lines. rewrite Ecs. cbv beta iota delta [bind].
  unfold lines_hardware. rewrite Eram, Ecpu, Ed. cbv beta iota delta [bind].
  unfold lines_summary. rewrite Hall.
  rewrite <- app_assoc. reflexivity.
Qed.

(** On the machine whose disk cannot be read the Hardware section has four
    lines. *)
Lemma C10_unknown_disk_has_no_line_witness :
  let f := probe Samples.json_loads Samples.unknown_disk in
  disk_total f = VStr "Desconhecido" /\
  exists hardware,
    lines_hardware Samples.float_str f = Ok hardware /\
    length hardware = 4%nat /\
    Forall (fun line => Str.is_prefix "- Disco" line = false) hardware.
Proof.
  intros f. split; [reflexivity|].
  destruct (C10_unknown_disk_has_no_line Samples.float_str Samples.json_str f false
              eq_refl eq_refl eq_refl)
    as (ram & cpu & cs & body & Hhw & Hno & _).
  eexists. split; [exact Hhw|]. split; [reflexivity | exact Hno].
Defined.

(* ================================================================= *)
(** * The TPM category *)

(** The dict built from a parsed answer: the category is the conjunction of
    [is_tpm20] with the disjunction of the two flags. *)
Lemma tpm_of_json_check (out : string) (j : json) (t : tpm_info) :
  tpm_of_json out j = Ok t ->
  exists e r,
    Json.get j "TpmEnabled" (JBool false) = Ok e /\
    Json.get j "TpmReady" (JBool false) = Ok r /\
    enabled t = (if Json.truthy e || Json.truthy r then "Ativado" else "Desativado") /\
    check_tpm t = is_tpm20 t && (Json.truthy e || Json.truthy r).
Proof.
  unfold tpm_of_json. destruct j as [| | | | | |items]; try discriminate.
  cbn [Json.get bind].
  destruct (Json.or_empty_strip_nul _) as [spec_ver|]; cbn [bind]; [|discriminate].
  destruct (Json.or_empty_strip_nul _) as [manuf_ver|]; cbn [bind]; [|discriminate].
  destruct (Json.or_empty_strip_nul _) as [manuf|]; cbn [bind]; [|discriminate].
  intros H. injection H as <-. eexists. eexists.
  split; [reflexivity|]. split; [reflexivity|]. split; [reflexivity|].
  unfold check_tpm. cbn [is_tpm20 enabled].
  destruct (Json.truthy _ || Json.truthy _); reflexivity.
Qed.

(** [get_tpm_info] returns the sentinel or the dict of a parsed answer. *)
Lemma get_tpm_info_cases json_loads (w : host) :
  let '(ok, out) := safe_run w cmd_tpm safe_run_default_timeout in
  get_tpm_info json_loads w = tpm_unknown out \/
  (ok = true /\ out <> "" /\
   exists j, json_loads out = Ok j /\
             tpm_of_json out j = Ok (get_tpm_info json_loads w)).
Proof.
  unfold get_tpm_info.
  destruct (safe_run w cmd_tpm safe_run_default_timeout) as [ok out].
  destruct ok; cbn [andb]; [|now left].
  destruct (String.eqb_spec out "") as [->|Hne]; cbn [negb]; [now left|].
  destruct (json_loads out) as [j|e] eqn:Ej; cbn [bind try_except]; [|now left].
  destruct (tpm_of_json out j) as [t|e] eqn:Et; cbn [try_except]; [|now left].
  right. repeat split; try assumption. exists j. auto.
Qed.

(** C4: the TPM category passes exactly when the answer of [Get-Tpm] was
    parsed, [is_tpm20] holds and the enabled flag or the ready flag is true;
    a TPM 2.0 reported ready but not enabled passes, and the sentinel
    returned for an unknown or unparsed TPM fails. *)
Theorem C4_tpm_category :
  (forall json_loads (w : host),
     check_tpm (tpm (probe json_loads w)) = true <->
     exists out j t e r,
       safe_run w cmd_tpm safe_run_default_timeout = (true, out) /\
       out <> "" /\
       json_loads out = Ok j /\
       tpm_of_json out j = Ok t /\
       Json.get j "TpmEnabled" (JBool false) = Ok e /\
       Json.get j "TpmReady" (JBool false) = Ok r /\
       is_tpm20 t = true /\
       (Json.truthy e || Json.truthy r) = true) /\
  (forall (out : string) (j : json),
     match tpm_of_json out j with
     | Ok t =>
         exists e r,
           Json.get j "TpmEnabled" (JBool false) = Ok e /\
           Json.get j "TpmReady" (JBool false) = Ok r /\
           check_tpm t = is_tpm20 t && (Json.truthy e || Json.truthy r)
     | Raise _ => True
     end) /\
  (exists t,
     tpm_of_json Samples.tpm_text Samples.tpm_ready_only = Ok t /\
     Json.get Samples.tpm_ready_only "TpmEnabled" (JBool false) = Ok (JBool false) /\
     Json.get Samples.tpm_ready_only "TpmReady" (JBool false) = Ok (JBool true) /\
     is_tpm20 t = true /\ check_tpm t = true) /\
  (forall out : string,
     enabled (tpm_unknown out) = "Desconhecido" /\
     is_tpm20 (tpm_unknown out) = false /\
     check_tpm (tpm_unknown out) = false).
Proof.
  split; [|split; [|split]].
  - intros json_loads w. cbn [tpm probe]. split.
    + intros H. pose proof (get_tpm_info_cases json_loads w) as C.
      destruct (safe_run w cmd_tpm safe_run_default_timeout) as [ok out].
      destruct C as [E | (-> & Hne & j & Ej & Et)].
      * rewrite E in H. discriminate H.
      * destruct (tpm_of_json_check _ _ _ Et) as (e & r & Ee & Er & _ & Hc).
        rewrite Hc in H. apply andb_true_iff in H. destruct H as [H20 Hfl].
        exists out, j, (get_tpm_info json_loads w), e, r. auto 10.
    + intros (out & j & t & e & r & Hrun & Hne & Ej & Et & Ee & Er & H20 & Hfl).
      unfold get_tpm_info. rewrite Hrun. cbn [andb].
      destruct (String.eqb_spec out "") as [->|_]; [contradiction|].
      cbn [negb]. rewrite Ej. cbn [bind]. rewrite Et. cbn [try_except].
      destruct (tpm_of_json_check _ _ _ Et) as (e' & r' & Ee' & Er' & _ & Hc).
      assert (e' = e) as -> by congruence.
      assert (r' = r) as -> by congruence.
      rewrite Hc, H20, Hfl. reflexivity.
  - intros out j. destruct (tpm_of_json out j) as [t|] eqn:Et; [|exact I].
    destruct (tpm_of_json_check _ _ _ Et) as (e & r & Ee & Er & _ & Hc). eauto.
  - eexists. repeat split; reflexivity.
  - intros out. repeat split; reflexivity.
Qed.

(* ================================================================= *)
(** * The RAM threshold *)

(** The RAM category of a machine with [total] bytes of memory. *)
Lemma check_ram_probe json_loads (w : host) :
  check_ram (ram_gb (probe json_loads w)) =
  check_ram (bytes_to_gb (VInt (psutil_virtual_memory_total w))).
Proof. reflexivity. Qed.

(** C3, as stated, fails: with one byte less than 4 GiB the quotient is
    rounded to two decimals, which gives 4.0, and the RAM category passes. *)
Lemma C3_one_byte_less_passes :
  psutil_virtual_memory_total Samples.ram_one_byte_short = 4 * 1024 ^ 3 - 1 /\
  ram_gb (probe Samples.json_loads Samples.ram_one_byte_short) =
    VFloat (F64.of_Z 4) /\
  check_ram (ram_gb (probe Samples.json_loads Samples.ram_one_byte_short)) = Ok true.
Proof. repeat split; reflexivity. Qed.

(** C3, amended: the threshold is inclusive at 4 GiB and is applied to the
    size in GB rounded to two decimals.  For every size below 2^53 bytes the
    RAM category passes exactly from 4289598587 bytes on, the sizes that
    round to 4.0 or more: exactly 4 * 1024^3 bytes pass, one byte less passes
    too, and 4289598586 bytes round to 3.99 and fail. *)
Theorem C3_ram_threshold_after_rounding :
  (forall json_loads (w : host),
     check_ram (ram_gb (probe json_loads w)) =
     check_ram (bytes_to_gb (VInt (psutil_virtual_memory_total w)))) /\
  (forall b : Z,
     0 <= b < 2 ^ 53 ->
     bytes_to_gb (VInt b) =
       VFloat (F64.div_Z (F64.round_half_even (b * 100) (1024 ^ 3)) 100) /\
     check_ram (bytes_to_gb (VInt b)) = Ok (4289598587 <=? b)) /\
  bytes_to_gb (VInt (4 * 1024 ^ 3)) = VFloat (F64.of_Z 4) /\
  check_ram (bytes_to_gb (VInt (4 * 1024 ^ 3))) = Ok true /\
  bytes_to_gb (VInt (4 * 1024 ^ 3 - 1)) = VFloat (F64.of_Z 4) /\
  check_ram (bytes_to_gb (VInt (4 * 1024 ^ 3 - 1))) = Ok true /\
  bytes_to_gb (VInt 4289598586) = VFloat (F64.div_Z 399 100) /\
  check_ram (bytes_to_gb (VInt 4289598586)) = Ok false.
Proof.
  split; [reflexivity|]. split; [|repeat split; reflexivity].
  intros b Hb. split.
  - now apply bytes_to_gb_hundredths.
  - now apply ram_threshold_bytes.
Qed.

(** One byte less than 4 GiB is within the range of the theorem. *)
Lemma C3_ram_threshold_after_rounding_witness :
  0 <= 4 * 1024 ^ 3 - 1 < 2 ^ 53 /\
  check_ram (bytes_to_gb (VInt (4 * 1024 ^ 3 - 1))) = Ok true.
Proof.
  split; [lia|].
  destruct C3_ram_threshold_after_rounding as (_ & H & _).
  exact (proj2 (H (4 * 1024 ^ 3 - 1) ltac:(lia))).
Defined.

(* ================================================================= *)
(** * Probes that run PowerShell *)

Lemma safe_run_failed (w : host) (cmd : string) (timeout : Z) :
  run_failed (subprocess_run w cmd timeout) = true ->
  fst (safe_run w cmd timeout) = false.
Proof.
  unfold safe_run, run_failed.
  destruct (subprocess_run w cmd timeout) as [rc out err|e msg]; [|reflexivity].
  destruct (rc =? 0); [discriminate | reflexivity].
Qed.

Lemma safe_run_at_default_timeout (w : host) (cmd : string) (timeout : Z) :
  safe_run (at_default_timeout w) cmd timeout =
  safe_run w cmd safe_run_default_timeout.
Proof. reflexivity. Qed.

(** C8, as stated, fails for the firmware probe: when both PowerShell
    commands run out of time and the folder [C:\Windows\Boot\EFI] exists,
    [get_firmware_type] answers "UEFI", not its sentinel "Desconhecido". *)
Lemma C8_firmware_probe_falls_back :
  safe_run Samples.powershell_timeout cmd_firmware_cim safe_run_default_timeout
    = (false, "timed out") /\
  safe_run Samples.powershell_timeout cmd_firmware_wmi safe_run_default_timeout
    = (false, "timed out") /\
  get_firmware_type Samples.powershell_timeout = "UEFI" /\
  get_firmware_type Samples.powershell_timeout <> "Desconhecido".
Proof. repeat split; try reflexivity. discriminate. Qed.

(** C8, amended: every probe that runs PowerShell calls [subprocess.run]
    with the timeout of 8 seconds only, and returns a value whatever the
    command does.  When the command raises (a timeout among others) or ends
    with a status other than zero, [safe_run] answers [False], the TPM probe
    returns its sentinel dict and the Secure Boot probe "Indisponível";
    the firmware probe, when both of its commands fail, answers "UEFI" if
    one of the EFI folders exists and "Desconhecido" otherwise. *)
Theorem C8_probes_degrade json_loads (w : host) :
  safe_run_default_timeout = 8 /\
  get_tpm_info json_loads (at_default_timeout w) = get_tpm_info json_loads w /\
  get_secure_boot_status (at_default_timeout w) = get_secure_boot_status w /\
  get_firmware_type (at_default_timeout w) = get_firmware_type w /\
  (forall cmd timeout,
     run_failed (subprocess_run w cmd timeout) = true ->
     fst (safe_run w cmd timeout) = false) /\
  (run_failed (subprocess_run w cmd_tpm safe_run_default_timeout) = true ->
   get_tpm_info json_loads w =
     tpm_unknown (snd (safe_run w cmd_tpm safe_run_default_timeout))) /\
  (run_failed (subprocess_run w cmd_secure_boot safe_run_default_timeout) = true ->
   get_secure_boot_status w = "Indisponível") /\
  (run_failed (subprocess_run w cmd_firmware_cim safe_run_default_timeout) = true ->
   run_failed (subprocess_run w cmd_firmware_wmi safe_run_default_timeout) = true ->
   get_firmware_type w =
     if existsb (os_path_exists w) efi_paths then "UEFI" else "Desconhecido").
Proof.
  split; [reflexivity|]. split; [reflexivity|]. split; [reflexivity|].
  split; [reflexivity|]. split; [intros cmd timeout; apply safe_run_failed|].
  split; [|split].
  - intros H. apply safe_run_failed in H. unfold get_tpm_info.
    destruct (safe_run w cmd_tpm safe_run_default_timeout) as [ok out].
    simpl in H. subst ok. reflexivity.
  - intros H. apply safe_run_failed in H. unfold get_secure_boot_status.
    destruct (safe_run w cmd_secure_boot safe_run_default_timeout) as [ok out].
    simpl in H. subst ok. reflexivity.
  - intros H1 H2. apply safe_run_failed in H1, H2. unfold get_firmware_type.
    destruct (safe_run w cmd_firmware_cim safe_run_default_timeout) as [ok1 out1].
    destruct (safe_run w cmd_firmware_wmi safe_run_default_timeout) as [ok2 out2].
    simpl in H1, H2. subst ok1 ok2. reflexivity.
Qed.

(** On the machine where PowerShell runs out of time. *)
Lemma C8_probes_degrade_witness :
  run_failed (subprocess_run Samples.powershell_timeout cmd_tpm
                safe_run_default_timeout) = true /\
  run_failed (subprocess_run Samples.powershell_timeout cmd_secure_boot
                safe_run_default_timeout) = true /\
  get_tpm_info Samples.json_loads Samples.powershell_timeout = tpm_unknown "timed out" /\
  get_secure_boot_status Samples.powershell_timeout = "Indisponível".
Proof.
  split; [reflexivity|]. split; [reflexivity|].
  destruct (C8_probes_degrade Samples.json_loads Samples.powershell_timeout)
    as (_ & _ & _ & _ & _ & Htpm & Hsb & _).
  split; [exact (Htpm eq_refl) | exact (Hsb eq_refl)].
Defined.

(* ================================================================= *)
(** * The report file *)

Lemma open_w_write_refused (fs : file_system) (path enc content : string) :
  writable fs path = false -> open_w_write fs path enc content = Raise OSError.
Proof. unfold open_w_write. now intros ->. Qed.

(** C9: [write_output_file] opens, for writing as UTF-8 text, the file
    [<hostname>.txt] joined to the current directory (to the directory of the
    executable when the program is frozen); when the file can be opened it
    then holds exactly the content, whatever it held before, no other file
    changes, and the path returned is the path written to. *)
Theorem C9_write_output_file
    (os_path_join : string -> string -> string)
    (os_path_dirname : string -> string)
    (w : host) (fs : file_system) (content hostname : string) :
  let dir := if sys_frozen w then os_path_dirname (sys_executable w)
             else os_getcwd w in
  let out_path := os_path_join dir (hostname +:+ ".txt") in
  writable fs out_path = true ->
  exists fs',
    write_output_file os_path_join os_path_dirname w fs content hostname
      = Ok (fs', out_path) /\
    files fs' !! out_path =
      Some {| file_encoding := "utf-8"; file_text := content |} /\
    (forall p : string, p <> out_path -> files fs' !! p = files fs !! p) /\
    writable fs' = writable fs.
Proof.
  intros dir out_path Hw.
  unfold write_output_file, base_dir, open_w_write.
  fold dir. fold out_path. rewrite Hw. cbn [bind].
  eexists. split; [reflexivity|]. cbn [files writable].
  split; [apply lookup_insert_eq|].
  split; [|reflexivity].
  intros p Hp. apply lookup_insert_ne. congruence.
Qed.

(** An older report of the same name is replaced. *)
Lemma C9_write_output_file_witness :
  let old := {| file_encoding := "cp1252"; file_text := "old report" |} in
  let fs := {| files := <["C:\Users\gabriel\PC-01.txt" := old]>
                          (files Samples.empty_disk);
               writable := fun _ => true |} in
  writable fs "C:\Users\gabriel\PC-01.txt" = true /\
  exists fs',
    write_output_file Samples.os_path_join Samples.os_path_dirname
      Samples.compatible fs "report" "PC-01"
      = Ok (fs', "C:\Users\gabriel\PC-01.txt") /\
    files fs' !! "C:\Users\gabriel\PC-01.txt" =
      Some {| file_encoding := "utf-8"; file_text := "report" |}.
Proof.
  intros old fs. split; [reflexivity|].
  destruct (C9_write_output_file Samples.os_path_join Samples.os_path_dirname
              Samples.compatible fs "report" "PC-01" eq_refl)
    as (fs' & Hrun & Hfile & _).
  exists fs'. split; [exact Hrun | exact Hfile].
Defined.

(* ================================================================= *)
(** * Further properties of the probes and of the report *)

Section MoreStringFacts.

Variable p : ascii -> bool.






End MoreStringFacts.




(** X2: [get_secure_boot_status] returns "True", "False" or
    "Indisponível" and nothing else; the SecureBoot category passes exactly
    on "True", and "Indisponível" is returned exactly when the command failed
    or answered neither "true" nor "false" in any letter case. *)
Theorem X2_secure_boot_status_values (w : host) :
  (get_secure_boot_status w = "True" \/
   get_secure_boot_status w = "False" \/
   get_secure_boot_status w = "Indisponível") /\
  (check_secure_boot (get_secure_boot_status w) = true <->
   get_secure_boot_status w = "True") /\
  (get_secure_boot_status w = "Indisponível" <->
   fst (safe_run w cmd_secure_boot safe_run_default_timeout) = false \/
   (Str.lower (snd (safe_run w cmd_secure_boot safe_run_default_timeout)) <> "true" /\
    Str.lower (snd (safe_run w cmd_secure_boot safe_run_default_timeout)) <> "false")).
Proof.
  pose proof (get_secure_boot_status_cases w) as C.
  destruct (safe_run w cmd_secure_boot safe_run_default_timeout) as [ok out].
  cbn [fst snd].
  destruct C as [(-> & Ht & ->) | [(-> & Hf & ->) | (Hk & ->)]].
  - split; [auto|]. split; [split; reflexivity|].
    split; [discriminate|]. intros [H|[H _]]; [discriminate H | contradiction].
  - split; [auto|]. split; [split; discriminate|].
    split; [discriminate|]. intros [H|[_ H]]; [discriminate H | contradiction].
  - split; [auto|]. split; [split; discriminate|]. split; auto.
Qed.

Lemma get_firmware_type_cases (w : host) :
  get_firmware_type w = "UEFI" \/ get_firmware_type w = "Legacy/BIOS" \/
  get_firmware_type w = "Desconhecido".
Proof.
  unfold get_firmware_type.
  destruct (safe_run w cmd_firmware_cim safe_run_default_timeout) as [ok1 out1].
  destruct (safe_run w cmd_firmware_wmi safe_run_default_timeout) as [ok2 out2].
  repeat match goal with
         | |- context [if ?b then _ else _] => destruct b
         end; auto.
Qed.

(** X3: [get_firmware_type] returns "UEFI", "Legacy/BIOS" or
    "Desconhecido" and nothing else, and the Firmware category passes exactly
    on "UEFI". *)
Theorem X3_firmware_type_values (w : host) :
  (get_firmware_type w = "UEFI" \/ get_firmware_type w = "Legacy/BIOS" \/
   get_firmware_type w = "Desconhecido") /\
  (check_firmware (get_firmware_type w) = true <-> get_firmware_type w = "UEFI").
Proof.
  split; [apply get_firmware_type_cases|].
  destruct (get_firmware_type_cases w) as [-> | [-> | ->]];
    split; (reflexivity || discriminate).
Qed.

(** X4: when the first PowerShell command succeeds with an answer it
    knows, that answer decides: "2", "UEFI" or "uefi" give "UEFI" and "1",
    "BIOS" or "bios" give "Legacy/BIOS", whatever the second command and the
    EFI folders say. *)
Theorem X4_firmware_first_answer_decides (w : host) (out : string) :
  safe_run w cmd_firmware_cim safe_run_default_timeout = (true, out) ->
  (In out ["2"; "UEFI"; "uefi"] -> get_firmware_type w = "UEFI") /\
  (In out ["1"; "BIOS"; "bios"] -> get_firmware_type w = "Legacy/BIOS").
Proof.
  intros H. unfold get_firmware_type. rewrite H. split.
  - intros [<- | [<- | [<- | []]]]; reflexivity.
  - intros [<- | [<- | [<- | []]]]; reflexivity.
Qed.

Lemma X4_firmware_first_answer_decides_witness :
  let w := Samples.machine (VInt 4) (8 * 1024 ^ 3) (Raise OSError)
             (fun cmd _ => if String.eqb cmd cmd_firmware_cim
                           then Completed 0 "1" "" else Completed 0 "2" "")
             (fun _ => true) in
  safe_run w cmd_firmware_cim safe_run_default_timeout = (true, "1") /\
  safe_run w cmd_firmware_wmi safe_run_default_timeout = (true, "2") /\
  existsb (os_path_exists w) efi_paths = true /\
  get_firmware_type w = "Legacy/BIOS".
Proof.
  intros w. split; [reflexivity|]. split; [reflexivity|]. split; [reflexivity|].
  apply (X4_firmware_first_answer_decides w "1" eq_refl). simpl. auto.
Defined.

(* ================================================================= *)
(** * The dict of [get_tpm_info] *)

Lemma str_or_nonempty (a b : string) : b <> "" -> str_or a b <> "".
Proof.
  intros Hb. unfold str_or. destruct (String.eqb_spec a "") as [->|Ha]; assumption.
Qed.

(** The fields of a dict built from a parsed answer. *)
Lemma tpm_of_json_fields (out : string) (j : json) (t : tpm_info) :
  tpm_of_json out j = Ok t ->
  (status t = "Presente" \/ status t = "Ausente") /\
  (enabled t = "Ativado" \/ enabled t = "Desativado") /\
  version t <> "" /\ manufacturer t <> "" /\ raw t = inl j /\
  (Str.contains "Full20" out = true -> is_tpm20 t = true).
Proof.
  unfold tpm_of_json. destruct j as [| | | | | |items]; try discriminate.
  cbn [Json.get bind].
  destruct (Json.or_empty_strip_nul _) as [spec_ver|]; cbn [bind]; [|discriminate].
  destruct (Json.or_empty_strip_nul _) as [manuf_ver|]; cbn [bind]; [|discriminate].
  destruct (Json.or_empty_strip_nul _) as [manuf|]; cbn [bind]; [|discriminate].
  intros H. injection H as <-. cbn [status enabled version manufacturer raw is_tpm20].
  split; [destruct (Json.truthy _); auto|].
  split; [destruct (Json.truthy _ || Json.truthy _); auto|].
  split; [apply str_or_nonempty, str_or_nonempty; discriminate|].
  split; [apply str_or_nonempty; discriminate|].
  split; [reflexivity|].
  intros ->. now rewrite orb_true_r.
Qed.


(** X6: an answer of [Get-Tpm] that cannot be used gives the sentinel and
    no exception: the command failed, the text is empty, [json.loads] raises,
    the document is not an object, or one of the three text fields holds a
    true value that is not a string. *)
Theorem X6_tpm_malformed_answer_is_unknown
    json_loads (w : host) (ok : bool) (out : string) :
  safe_run w cmd_tpm safe_run_default_timeout = (ok, out) ->
  ok = false \/ out = "" \/
  (exists e, json_loads out = Raise e) \/
  (exists j, json_loads out = Ok j /\
             match j with JObject _ => False | _ => True end) \/
  (exists items key v,
     json_loads out = Ok (JObject items) /\
     In key ["SpecVersion"; "ManufacturerVersionFull20"; "ManufacturerIdTxt"] /\
     Json.assoc key items = Some v /\ Json.truthy v = true /\
     match v with JStr _ => False | _ => True end) ->
  get_tpm_info json_loads w = tpm_unknown out.
Proof.
  intros Hrun H. unfold get_tpm_info. rewrite Hrun.
  destruct ok; cbn [andb]; [|reflexivity].
  destruct (String.eqb_spec out "") as [->|Hne]; cbn [negb]; [reflexivity|].
  destruct H as [H | [H | [[e H] | [(j & H & Hj) | (items & key & v & H & Hk & Hv & Ht & Hs)]]]].
  - discriminate H.
  - contradiction.
  - now rewrite H.
  - rewrite H. cbn [bind]. destruct j; try contradiction; reflexivity.
  - rewrite H. cbn [bind]. unfold tpm_of_json. cbn [Json.get bind].
    assert (Hbad : Json.or_empty_strip_nul v = Raise AttributeError).
    { unfold Json.or_empty_strip_nul. rewrite Ht. destruct v; try reflexivity.
      contradiction. }
    destruct Hk as [<- | [<- | [<- | []]]]; rewrite Hv, Hbad;
      repeat (destruct (Json.or_empty_strip_nul _); cbn [bind]; try reflexivity).
Qed.

Lemma X6_tpm_malformed_answer_is_unknown_witness :
  let w := Samples.compatible in
  let loads := fun _ : string => Ok (JObject [("SpecVersion", JInt 2)]) in
  safe_run w cmd_tpm safe_run_default_timeout = (true, Samples.tpm_text) /\
  get_tpm_info loads w = tpm_unknown Samples.tpm_text.
Proof.
  intros w loads. split; [reflexivity|].
  apply (X6_tpm_malformed_answer_is_unknown loads w true Samples.tpm_text eq_refl).
  right; right; right; right.
  exists [("SpecVersion", JInt 2)], "SpecVersion", (JInt 2).
  repeat split; simpl; auto.
Defined.

(** X7: an object in which every key read is missing or null gives status
    "Ausente", enabled "Desativado", version and manufacturer "Desconhecido",
    and [is_tpm20] is then decided by the occurrence of "Full20" in the text
    alone. *)
Theorem X7_tpm_missing_keys_default (out : string) (items : list (string * json)) :
  (forall key, In key tpm_keys ->
     Json.assoc key items = None \/ Json.assoc key items = Some JNull) ->
  tpm_of_json out (JObject items) =
  Ok {| status := "Ausente"; enabled := "Desativado";
        version := "Desconhecido"; manufacturer := "Desconhecido";
        is_tpm20 := Str.contains "Full20" out;
        raw := inl (JObject items) |}.
Proof.
  intros H. unfold tpm_of_json. cbn [Json.get bind].
  assert (Hp := H "TpmPresent" ltac:(simpl; tauto)).
  assert (He := H "TpmEnabled" ltac:(simpl; tauto)).
  assert (Hr := H "TpmReady" ltac:(simpl; tauto)).
  assert (Hs := H "SpecVersion" ltac:(simpl; tauto)).
  assert (Hv := H "ManufacturerVersionFull20" ltac:(simpl; tauto)).
  assert (Hm := H "ManufacturerIdTxt" ltac:(simpl; tauto)).
  destruct Hp as [-> | ->], He as [-> | ->], Hr as [-> | ->],
           Hs as [-> | ->], Hv as [-> | ->], Hm as [-> | ->];
    cbn; now rewrite orb_false_r.
Qed.

Lemma X7_tpm_missing_keys_default_witness :
  (forall key, In key tpm_keys ->
     Json.assoc key [("SpecVersion", JNull)] = None \/
     Json.assoc key [("SpecVersion", JNull)] = Some JNull) /\
  check_tpm {| status := "Ausente"; enabled := "Desativado";
               version := "Desconhecido"; manufacturer := "Desconhecido";
               is_tpm20 := Str.contains "Full20" "{}";
               raw := inl (JObject [("SpecVersion", JNull)]) |} = false /\
  exists t, tpm_of_json "{}" (JObject [("SpecVersion", JNull)]) = Ok t /\
            status t = "Ausente".
Proof.
  assert (H : forall key, In key tpm_keys ->
     Json.assoc key [("SpecVersion", JNull)] = None \/
     Json.assoc key [("SpecVersion", JNull)] = Some JNull).
  { intros key [<- | [<- | [<- | [<- | [<- | [<- | []]]]]]]; simpl; auto. }
  split; [exact H|]. split; [reflexivity|].
  eexists. split; [exact (X7_tpm_missing_keys_default "{}" _ H) | reflexivity].
Defined.

(** X8: when the text of the command contains "Full20", [is_tpm20] holds
    exactly when the answer was parsed into the dict, whatever versions the
    fields give. *)
Theorem X8_tpm_full20_in_text json_loads (w : host) (out : string) :
  safe_run w cmd_tpm safe_run_default_timeout = (true, out) ->
  Str.contains "Full20" out = true ->
  (is_tpm20 (get_tpm_info json_loads w) = true <->
   exists j, raw (get_tpm_info json_loads w) = inl j) /\
  (is_tpm20 (get_tpm_info json_loads w) = true <->
   exists j, json_loads out = Ok j /\
             tpm_of_json out j = Ok (get_tpm_info json_loads w)).
Proof.
  intros Hrun Hfull. pose proof (get_tpm_info_cases json_loads w) as C.
  rewrite Hrun in C. 
  assert (Hne : out <> "") by (intros ->; cbv in Hfull; discriminate Hfull).
  unfold get_tpm_info in *. rewrite Hrun in *. cbn [andb] in *.
  destruct (String.eqb_spec out "") as [|_]; [contradiction|]. cbn [negb] in *.
  destruct (json_loads out) as [j|e] eqn:Ej; cbn [bind try_except] in *.
  - destruct (tpm_of_json out j) as [t|e] eqn:Et; cbn [try_except] in *.
    + destruct (tpm_of_json_fields _ _ _ Et) as (_ & _ & _ & _ & Hr & H20).
      rewrite (H20 Hfull). split; split; eauto.
    + split; split; try discriminate.
      * intros [j' H]. discriminate H.
      * intros (j' & H1 & H2). congruence.
  - split; split; try discriminate.
    + intros [j' H]. discriminate H.
    + intros (j' & H1 & H2). congruence.
Qed.

Lemma X8_tpm_full20_in_text_witness :
  let w := Samples.machine (VInt 4) (8 * 1024 ^ 3) (Raise OSError)
             (fun _ _ => Completed 0 "ManufacturerVersionFull20: null" "")
             (fun _ => false) in
  let loads := fun _ : string => Ok (JObject [("SpecVersion", JStr "1.2")]) in
  safe_run w cmd_tpm safe_run_default_timeout
    = (true, "ManufacturerVersionFull20: null") /\
  Str.contains "Full20" "ManufacturerVersionFull20: null" = true /\
  version (get_tpm_info loads w) = "1.2" /\
  is_tpm20 (get_tpm_info loads w) = true.
Proof.
  intros w loads. split; [reflexivity|]. split; [reflexivity|]. split; [reflexivity|].
  destruct (X8_tpm_full20_in_text loads w _ eq_refl eq_refl) as [H _].
  apply H. eexists. reflexivity.
Defined.

(* ================================================================= *)
(** * Probes that query WMI *)


Lemma strip_names_not_str (gs : list value) (g : value) :
  In g gs -> match g with VStr _ => False | _ => True end ->
  strip_names gs = Raise AttributeError.
Proof.
  intros Hin Hg. induction gs as [|h r IH]; [destruct Hin|].
  cbn [strip_names]. destruct Hin as [->|Hin].
  - destruct g; try contradiction; reflexivity.
  - destruct (value_strip h) as [n|e] eqn:Eh; cbn [bind].
    + now rewrite (IH Hin).
    + destruct h; try discriminate Eh; cbn in Eh; congruence.
Qed.



(** X10: when WMI lists no video controller, or one of the listed
    controllers has a name that is not a string, [get_gpu_names] is
    "Desconhecido" (the other names are lost) and the GPU line of the report
    is marked not compatible. *)
Theorem X10_gpu_names_unknown
    (w : host) (c : wmi_connection) (gs : list value) :
  wmi w = Some (Ok c) ->
  Win32_VideoController c = Ok gs ->
  gs = [] \/ (exists g, In g gs /\ match g with VStr _ => False | _ => True end) ->
  get_gpu_names w = "Desconhecido" /\
  check_requirement (negb (String.eqb (get_gpu_names w) "Desconhecido"))
    = "❌ Não compatível".
Proof.
  intros Hw Hc H.
  assert (E : get_gpu_names w = "Desconhecido").
  { unfold get_gpu_names. rewrite Hw, Hc. cbn [bind].
    destruct H as [-> | (g & Hin & Hg)]; [reflexivity|].
    now rewrite (strip_names_not_str gs g Hin Hg). }
  rewrite E. split; reflexivity.
Qed.

Lemma X10_gpu_names_unknown_witness :
  let c := Cases.wmi_with_gpus [VStr "Intel UHD 620"; VNone] in
  wmi (Cases.host_with_wmi (Some (Ok c))) = Some (Ok c) /\
  get_gpu_names (Cases.host_with_wmi (Some (Ok c))) = "Desconhecido".
Proof.
  intros c. split; [reflexivity|].
  apply (X10_gpu_names_unknown (Cases.host_with_wmi (Some (Ok c))) c
           [VStr "Intel UHD 620"; VNone] eq_refl eq_refl).
  right. exists VNone. simpl. auto.
Defined.

(** X11: when the module [wmi] could not be imported, or [wmi.WMI()]
    raises, manufacturer, model and GPU are "Desconhecido" and the CPU name
    and core count are those of [platform.processor()] and
    [psutil.cpu_count(logical=False)]. *)
Theorem X11_without_wmi (w : host) :
  wmi w = None \/ (exists e, wmi w = Some (Raise e)) ->
  get_manufacturer_model w = (VStr "Desconhecido", VStr "Desconhecido") /\
  get_cpu_info w = (platform_processor w, psutil_cpu_count w) /\
  get_gpu_names w = "Desconhecido".
Proof.
  intros [H | [e H]];
    unfold get_manufacturer_model, get_cpu_info, get_gpu_names; rewrite H;
    repeat split.
Qed.

Lemma X11_without_wmi_witness :
  wmi Samples.unknown_cores = None /\
  get_cpu_info Samples.unknown_cores = ("Intel64 Family 6", VNone).
Proof.
  split; [reflexivity|].
  destruct (X11_without_wmi Samples.unknown_cores (or_introl eq_refl)) as (_ & H & _).
  exact H.
Defined.

(* ================================================================= *)
(** * The report *)

Lemma append_assoc (a b c : string) : (a +:+ b) +:+ c = a +:+ (b +:+ c).
Proof.
  induction a as [|x a IH]; [reflexivity|].
  change (String x ((a +:+ b) +:+ c) = String x (a +:+ (b +:+ c))).
  now rewrite IH.
Qed.

Lemma join_cons (sep x : string) (l : list string) :
  l <> [] -> Str.join sep (x :: l) = x +:+ sep +:+ Str.join sep l.
Proof. destruct l; [contradiction | reflexivity]. Qed.

Lemma join_app (sep : string) (l1 l2 : list string) :
  l1 <> [] -> l2 <> [] ->
  Str.join sep (l1 ++ l2) = Str.join sep l1 +:+ sep +:+ Str.join sep l2.
Proof.
  intros H1 H2. induction l1 as [|x l1 IH]; [contradiction|].
  destruct l1 as [|y l1].
  - cbn [app]. now rewrite join_cons.
  - change ((x :: y :: l1) ++ l2) with (x :: ((y :: l1) ++ l2)).
    rewrite join_cons by discriminate. rewrite IH by discriminate.
    rewrite (join_cons sep x (y :: l1)) by discriminate.
    now rewrite !append_assoc.
Qed.

(** The dict [checks] when it is built. *)
Lemma checks_inv (f : facts) (cs : list (string * bool)) :
  checks f = Ok cs ->
  exists ram cpu disco,
    py_ge (ram_gb f) 4 = Ok ram /\ py_ge (cpu_cores f) 2 = Ok cpu /\
    check_disco (disk_total f) = Ok disco /\
    cs = [("RAM", ram); ("CPU", cpu); ("Disco", disco);
          ("TPM", check_tpm (tpm f));
          ("Firmware", check_firmware (firmware f));
          ("SecureBoot", check_secure_boot (secure_boot f));
          ("Arquitetura", check_arquitetura (arch f))].
Proof.
  unfold checks, check_ram, check_cpu.
  destruct (py_ge (ram_gb f) 4) as [ram|]; cbn [bind]; [|discriminate].
  destruct (py_ge (cpu_cores f) 2) as [cpu|]; cbn [bind]; [|discriminate].
  destruct (check_disco (disk_total f)) as [disco|]; cbn [bind]; [|discriminate].
  intros H. injection H as <-. exists ram, cpu, disco. auto.
Qed.

(** The list [lines] when it is built: the lines that do not depend on
    [debug], then those of the debug mode. *)
Lemma report_lines_ok float_str json_str (f : facts) (ram cpu : bool) :
  py_ge (ram_gb f) 4 = Ok ram -> py_ge (cpu_cores f) 2 = Ok cpu ->
  exists cs disk,
    checks f = Ok cs /\ lines_disk float_str f = Ok disk /\
    forall debug,
      report_lines float_str json_str f debug =
      Ok ((["Relatório de Compatibilidade com Windows 11 + Simulação Visual" +:+ Str.nl]
           ++ lines_identification float_str f
           ++ (["2. Hardware:" +:+ Str.nl;
                "- Memória RAM: " +:+ value_str float_str (ram_gb f) +:+ " GB — " +:+
                  check_requirement ram +:+ " (≥ 4 GB)";
                "- CPU: " +:+ cpu_name f +:+ " (" +:+
                  value_str float_str (cpu_cores f) +:+
                  " núcleos) — " +:+ check_requirement cpu]
               ++ disk ++
               ["- GPU: " +:+ gpu f +:+ " — " +:+
                  check_requirement (negb (String.eqb (gpu f) "Desconhecido")) +:+
                  Str.nl])
           ++ lines_security f ++ lines_summary cs)
          ++ lines_debug json_str f debug).
Proof.
  intros Eram Ecpu.
  destruct (check_disco_total (disk_total f)) as [disco Edisco].
  assert (exists d, lines_disk float_str f = Ok d) as [d Ed].
  { unfold lines_disk. unfold check_disco in Edisco.
    destruct (isinstance_int_float (disk_total f)); [rewrite Edisco|]; cbn [bind]; eauto. }
  eexists. exists d. split; [|split; [exact Ed|]].
  - unfold checks, check_ram, check_cpu. rewrite Eram, Ecpu, Edisco. reflexivity.
  - intros debug.
    unfold report_lines, checks, check_ram, check_cpu, lines_hardware.
    rewrite Eram, Ecpu, Edisco, Ed. cbn [bind]. f_equal.
    rewrite <- !app_assoc. reflexivity.
Qed.

(** X12: the dict [checks] reads eight values only: memory, cores, disk
    size, the two fields [is_tpm20] and [enabled] of the TPM dict, firmware,
    Secure Boot and architecture.  GPU, free disk space, manufacturer, model,
    TPM status and version never change the verdict. *)
Theorem X12_verdict_inputs (f g : facts) :
  ram_gb f = ram_gb g -> cpu_cores f = cpu_cores g ->
  disk_total f = disk_total g ->
  is_tpm20 (tpm f) = is_tpm20 (tpm g) -> enabled (tpm f) = enabled (tpm g) ->
  firmware f = firmware g -> secure_boot f = secure_boot g -> arch f = arch g ->
  checks f = checks g.
Proof.
  intros H1 H2 H3 H4 H5 H6 H7 H8. unfold checks, check_tpm.
  now rewrite H1, H2, H3, H4, H5, H6, H7, H8.
Qed.

Lemma X12_verdict_inputs_witness :
  let f := probe Samples.json_loads Samples.compatible in
  let c := Cases.wmi_with_gpus [VStr "NVIDIA MX150"] in
  let g := probe Samples.json_loads (Cases.host_with_wmi (Some (Ok c))) in
  gpu f = "Desconhecido" /\ gpu g = "NVIDIA MX150" /\ checks f = checks g.
Proof.
  intros f c g. split; [reflexivity|]. split; [reflexivity|].
  apply X12_verdict_inputs; reflexivity.
Defined.

(** [build_report] on a machine with less than 2 ^ 53 bytes of memory. *)
Lemma build_report_cases json_loads float_str json_str
    (w : host) (debug : bool) :
  0 <= psutil_virtual_memory_total w < 2 ^ 53 ->
  (isinstance_int_float (snd (get_cpu_info w)) = true ->
   exists text,
     build_report json_loads float_str json_str w debug = Ok (text, gethostname w)) /\
  (isinstance_int_float (snd (get_cpu_info w)) = false ->
   build_report json_loads float_str json_str w debug = Raise TypeError).
Proof.
  intros Hmem.
  assert (Hram : isinstance_int_float (ram_gb (probe json_loads w)) = true).
  { cbn [ram_gb probe]. unfold get_ram_gb.
    now rewrite bytes_to_gb_hundredths. }
  split.
  - intros Hcpu.
    destruct (py_ge_number _ 4 Hram) as [ram Eram].
    destruct (py_ge_number (cpu_cores (probe json_loads w)) 2 Hcpu) as [cpu Ecpu].
    destruct (report_lines_ok float_str json_str _ ram cpu Eram Ecpu)
      as (cs & disk & _ & _ & E).
    unfold build_report. rewrite E. cbn [bind]. eexists. reflexivity.
  - intros Hcpu. unfold build_report.
    rewrite report_lines_raise; [reflexivity|]. now right.
Qed.

(** X13: on a machine with less than 2^53 bytes of memory,
    [build_report] returns a text, paired with the host name, exactly when
    the core count is a number, and raises [TypeError] exactly when it is
    not. *)
Theorem X13_build_report_outcome json_loads float_str json_str
    (w : host) (debug : bool) :
  0 <= psutil_virtual_memory_total w < 2 ^ 53 ->
  (isinstance_int_float (snd (get_cpu_info w)) = true <->
   exists text,
     build_report json_loads float_str json_str w debug = Ok (text, gethostname w)) /\
  (isinstance_int_float (snd (get_cpu_info w)) = false <->
   build_report json_loads float_str json_str w debug = Raise TypeError).
Proof.
  intros Hmem.
  destruct (build_report_cases json_loads float_str json_str w debug Hmem)
    as [Hok Hbad].
  destruct (isinstance_int_float (snd (get_cpu_info w))) eqn:E.
  - destruct (Hok eq_refl) as [text Ht]. split; split; eauto; try discriminate.
    rewrite Ht. discriminate.
  - rewrite (Hbad eq_refl). split; split; auto; try discriminate.
    intros [text Ht]. discriminate Ht.
Qed.

Lemma X13_build_report_outcome_witness :
  0 <= psutil_virtual_memory_total Samples.unknown_cores < 2 ^ 53 /\
  build_report Samples.json_loads Samples.float_str Samples.json_str
    Samples.unknown_cores true = Raise TypeError.
Proof.
  split; [change (0 <= 8 * 1024 ^ 3 < 2 ^ 53); lia|].
  apply (X13_build_report_outcome Samples.json_loads Samples.float_str
           Samples.json_str Samples.unknown_cores true).
  - change (0 <= 8 * 1024 ^ 3 < 2 ^ 53); lia.
  - reflexivity.
Defined.

(** X14: the report in debug mode is the report without it, followed by a
    line end, the heading "\n[DEBUG] TPM RAW:", a line end and the raw TPM
    payload; the host name returned is the same. *)
Theorem X14_debug_appends json_loads float_str json_str
    (w : host) (text host : string) :
  build_report json_loads float_str json_str w false = Ok (text, host) ->
  build_report json_loads float_str json_str w true =
  Ok (text +:+ Str.nl +:+ (Str.nl +:+ "[DEBUG] TPM RAW:") +:+ Str.nl +:+
      match raw (get_tpm_info json_loads w) with
      | inl j => json_str j
      | inr out => out
      end,
      host).
Proof.
  unfold build_report. set (f := probe json_loads w).
  destruct (py_ge (ram_gb f) 4) as [ram|e] eqn:Eram.
  2:{ unfold report_lines, checks, check_ram. rewrite Eram. discriminate. }
  destruct (py_ge (cpu_cores f) 2) as [cpu|e] eqn:Ecpu.
  2:{ unfold report_lines, checks, check_ram, check_cpu. rewrite Eram, Ecpu.
      discriminate. }
  destruct (report_lines_ok float_str json_str f ram cpu Eram Ecpu)
    as (cs & disk & _ & _ & E).
  rewrite !E. cbn [bind lines_debug]. rewrite app_nil_r.
  intros H. injection H as <- <-.
  rewrite join_app by discriminate. reflexivity.
Qed.

Lemma X14_debug_appends_witness :
  exists text,
    build_report Samples.json_loads Samples.float_str Samples.json_str
      Samples.compatible false = Ok (text, "PC-01") /\
    build_report Samples.json_loads Samples.float_str Samples.json_str
      Samples.compatible true =
    Ok (text +:+ Str.nl +:+ (Str.nl +:+ "[DEBUG] TPM RAW:") +:+ Str.nl +:+ "{...}",
        "PC-01").
Proof.
  eexists. split; [reflexivity|].
  exact (X14_debug_appends Samples.json_loads Samples.float_str Samples.json_str
           Samples.compatible _ _ eq_refl).
Defined.

(** Every category name reads back from the joined list of failures. *)
Lemma failing_read_back (ram cpu disco t fw sb aq : bool) :
  let line := Str.join ", " (failing ram cpu disco t fw sb aq) in
  Str.contains "RAM" line = negb ram /\ Str.contains "CPU" line = negb cpu /\
  Str.contains "Disco" line = negb disco /\ Str.contains "TPM" line = negb t /\
  Str.contains "Firmware" line = negb fw /\
  Str.contains "SecureBoot" line = negb sb /\
  Str.contains "Arquitetura" line = negb aq.
Proof. destruct ram, cpu, disco, t, fw, sb, aq; vm_compute; repeat split. Qed.

(** X15: the joined list of failing categories reads back: each of the
    seven category names occurs in it exactly when that category is false. *)
Theorem X15_summary_reads_back (f : facts) (cs : list (string * bool)) :
  checks f = Ok cs ->
  forall (k : string) (b : bool),
    In (k, b) cs ->
    Str.contains k (Str.join ", " (faltando cs)) = negb b.
Proof.
  intros Hcs k b Hin.
  destruct (checks_inv f cs Hcs) as (ram & cpu & disco & _ & _ & _ & ->).
  revert Hin.
  generalize (check_tpm (tpm f)) (check_firmware (firmware f))
             (check_secure_boot (secure_boot f)) (check_arquitetura (arch f)).
  intros t fw sb aq Hin.
  assert (Hf : faltando [("RAM", ram); ("CPU", cpu); ("Disco", disco); ("TPM", t);
                    ("Firmware", fw); ("SecureBoot", sb); ("Arquitetura", aq)]
          = failing ram cpu disco t fw sb aq)
    by (destruct ram, cpu, disco, t, fw, sb, aq; reflexivity).
  rewrite Hf.
  destruct (failing_read_back ram cpu disco t fw sb aq)
    as (H1 & H2 & H3 & H4 & H5 & H6 & H7).
  cbn [In] in Hin.
  destruct Hin as [E|[E|[E|[E|[E|[E|[E|[]]]]]]]]; injection E as <- <-; assumption.
Qed.

Lemma X15_summary_reads_back_witness :
  let f := probe Samples.json_loads Samples.unknown_disk in
  exists cs, checks f = Ok cs /\ In ("Disco", false) cs /\
             Str.contains "Disco" (Str.join ", " (faltando cs)) = true.
Proof.
  intros f. eexists. split; [reflexivity|]. split; [simpl; tauto|].
  apply (X15_summary_reads_back f _ eq_refl "Disco" false). simpl; tauto.
Defined.

(** X16: when the disk is read and smaller than 2^53 bytes, the report
    has exactly one Disk line; it shows the size in GB rounded to hundredths
    and is marked compatible exactly from 68714108027 bytes on. *)
Theorem X16_disk_line json_loads float_str (w : host) (total free : Z) :
  psutil_disk_usage w = Ok (total, free) ->
  0 <= total < 2 ^ 53 ->
  lines_disk float_str (probe json_loads w) =
  Ok ["- Disco C: " +:+
      float_str (F64.div_Z (F64.round_half_even (total * 100) (1024 ^ 3)) 100) +:+
      " GB — " +:+ check_requirement (68714108027 <=? total) +:+ " (≥ 64 GB)"].
Proof.
  intros Hdisk Htotal.
  pose proof (disk_threshold_bytes total Htotal) as Hc.
  unfold lines_disk. unfold check_disco in Hc.
  cbn [disk_total probe]. unfold get_disk_info. rewrite Hdisk. cbn [fst].
  rewrite (bytes_to_gb_hundredths total Htotal) in *.
  cbn [isinstance_int_float] in *. rewrite Hc. reflexivity.
Qed.

Lemma X16_disk_line_witness :
  psutil_disk_usage Samples.compatible = Ok (128 * 1024 ^ 3, 64 * 1024 ^ 3) /\
  0 <= 128 * 1024 ^ 3 < 2 ^ 53 /\
  lines_disk Samples.float_str (probe Samples.json_loads Samples.compatible) =
  Ok ["- Disco C: 128.00 GB — ✔️ Compatível (≥ 64 GB)"].
Proof.
  split; [reflexivity|]. split; [lia|].
  rewrite (X16_disk_line Samples.json_loads Samples.float_str Samples.compatible
             (128 * 1024 ^ 3) (64 * 1024 ^ 3) eq_refl ltac:(lia)).
  reflexivity.
Defined.

(* ================================================================= *)
(** * The report file *)

(** X17: writing a second report for the same host name leaves the file
    system as if only the second had been written, under the same path. *)
Theorem X17_last_write_wins
    (os_path_join : string -> string -> string)
    (os_path_dirname : string -> string)
    (w : host) (fs : file_system) (first second hostname : string) :
  writable fs (os_path_join (base_dir os_path_dirname w) (hostname +:+ ".txt")) = true ->
  exists fs1 fs2 path,
    write_output_file os_path_join os_path_dirname w fs first hostname
      = Ok (fs1, path) /\
    write_output_file os_path_join os_path_dirname w fs1 second hostname
      = Ok (fs2, path) /\
    write_output_file os_path_join os_path_dirname w fs second hostname
      = Ok (fs2, path).
Proof.
  intros Hw. set (path := os_path_join _ _) in *.
  exists {| files := <[path := {| file_encoding := "utf-8"; file_text := first |}]>
                       (files fs);
            writable := writable fs |}.
  exists {| files := <[path := {| file_encoding := "utf-8"; file_text := second |}]>
                       (files fs);
            writable := writable fs |}.
  exists path.
  unfold write_output_file, open_w_write. fold path. cbn [writable files].
  rewrite Hw. cbn [bind]. rewrite insert_insert_eq. auto.
Qed.

Lemma X17_last_write_wins_witness :
  writable Samples.empty_disk
    (Samples.os_path_join (base_dir Samples.os_path_dirname Samples.compatible)
       ("PC-01" +:+ ".txt")) = true /\
  exists fs1 fs2 path,
    write_output_file Samples.os_path_join Samples.os_path_dirname
      Samples.compatible Samples.empty_disk "first" "PC-01" = Ok (fs1, path) /\
    write_output_file Samples.os_path_join Samples.os_path_dirname
      Samples.compatible fs1 "second" "PC-01" = Ok (fs2, path) /\
    write_output_file Samples.os_path_join Samples.os_path_dirname
      Samples.compatible Samples.empty_disk "second" "PC-01" = Ok (fs2, path).
Proof.
  split; [reflexivity|].
  exact (X17_last_write_wins Samples.os_path_join Samples.os_path_dirname
           Samples.compatible Samples.empty_disk "first" "second" "PC-01" eq_refl).
Defined.

(** X18: on a machine with less than 2^53 bytes of memory, the main block
    either leaves the files untouched, with [TypeError] when the core count
    is no number and [OSError] when the file cannot be opened, or writes the
    text returned by [build_report] to [<hostname>.txt], changes no other
    file and announces the path. *)
Theorem X18_report_reaches_its_file
    json_loads float_str json_str
    (os_path_join : string -> string -> string)
    (os_path_dirname : string -> string)
    (argv : list string) (w : host) (fs : file_system) :
  0 <= psutil_virtual_memory_total w < 2 ^ 53 ->
  let path := os_path_join (base_dir os_path_dirname w) (gethostname w +:+ ".txt") in
  let run := main_generate_report json_loads float_str json_str
               os_path_join os_path_dirname argv w fs in
  (isinstance_int_float (snd (get_cpu_info w)) = false ->
   run = (fs, Raise TypeError)) /\
  (isinstance_int_float (snd (get_cpu_info w)) = true ->
   writable fs path = false -> run = (fs, Raise OSError)) /\
  (isinstance_int_float (snd (get_cpu_info w)) = true ->
   writable fs path = true ->
   exists text fs',
     build_report json_loads float_str json_str w (Str.mem "--debug" argv)
       = Ok (text, gethostname w) /\
     run = (fs', Ok ("[✅] Relatório gerado com sucesso: " +:+ path)) /\
     files fs' !! path = Some {| file_encoding := "utf-8"; file_text := text |} /\
     forall p : string, p <> path -> files fs' !! p = files fs !! p).
Proof.
  intros Hmem path run.
  destruct (build_report_cases json_loads float_str json_str w (Str.mem "--debug" argv) Hmem)
    as [Hok Hbad].
  subst run. unfold main_generate_report. split; [|split].
  - intros Hc. now rewrite (Hbad Hc).
  - intros Hc Hw. destruct (Hok Hc) as [text ->].
    unfold write_output_file, open_w_write. fold path. now rewrite Hw.
  - intros Hc Hw. destruct (Hok Hc) as [text E]. rewrite E.
    unfold write_output_file, open_w_write. fold path. rewrite Hw. cbn [bind].
    eexists. eexists. split; [reflexivity|]. split; [reflexivity|].
    cbn [files]. split; [apply lookup_insert_eq|].
    intros p Hp. apply lookup_insert_ne. congruence.
Qed.

Lemma X18_report_reaches_its_file_witness :
  let old := {| file_encoding := "utf-8"; file_text := "older report" |} in
  let fs := {| files := <["C:\Users\gabriel\PC-01.txt" := old]>
                          (files Samples.empty_disk);
               writable := fun _ => true |} in
  0 <= psutil_virtual_memory_total Samples.unknown_cores < 2 ^ 53 /\
  main_generate_report Samples.json_loads Samples.float_str Samples.json_str
    Samples.os_path_join Samples.os_path_dirname ["script.py"]
    Samples.unknown_cores fs = (fs, Raise TypeError) /\
  files fs !! "C:\Users\gabriel\PC-01.txt" = Some old.
Proof.
  intros old fs.
  assert (H : 0 <= psutil_virtual_memory_total Samples.unknown_cores < 2 ^ 53)
    by (change (0 <= 8 * 1024 ^ 3 < 2 ^ 53); lia).
  split; [exact H|]. split; [|reflexivity].
  exact (proj1 (X18_report_reaches_its_file Samples.json_loads Samples.float_str
                  Samples.json_str Samples.os_path_join Samples.os_path_dirname
                  ["script.py"] Samples.unknown_cores fs H) eq_refl).
Defined.

(* ================================================================= *)
(** * Sizes in gigabytes *)

Section WholeGigabytes.

Import F64.

Lemma pos_iter_xO (m d : positive) :
  Z.pos (Pos.iter xO m d) = Z.pos m * 2 ^ Z.pos d.
Proof.
  induction d as [|d IH] using Pos.peano_ind.
  - cbn [Pos.iter]. rewrite Pos2Z.inj_xO. change (2 ^ 1) with 2. lia.
  - rewrite Pos.iter_succ, Pos2Z.inj_xO, IH, Pos2Z.inj_succ, Z.pow_succ_r by lia. lia.
Qed.

(** A mantissa of 53 bits that is exact is kept as it is. *)
Lemma binary_round_aux_exact_53 (q e : Z) :
  2 ^ 52 <= q < 2 ^ 53 -> -1074 <= e <= 971 ->
  binary_round_aux prec emax false q e loc_Exact
  = S754_finite false (Z.to_pos q) e.
Proof.
  intros Hq He. unfold binary_round_aux.
  rewrite shr_fexp_53 by lia. cbv beta iota.
  cbn [shr_record_of_loc shr_m loc_of_shr_record round_nearest_even].
  rewrite shr_fexp_53 by lia. cbv beta iota. cbn [shr_record_of_loc shr_m].
  apply finish_positive; lia.
Qed.

Lemma Zdigits2_mul_pow2 (n s : Z) :
  0 < n -> 0 <= s -> Zdigits2 (n * 2 ^ s) = Zdigits2 n + s.
Proof.
  intros Hn Hs. destruct (Zdigits2_range n Hn) as (Hd & Hlo & Hhi).
  assert (P : 0 < 2 ^ s) by (apply Z.pow_pos_nonneg; lia).
  apply Zdigits2_bounds; [lia|].
  replace (Zdigits2 n + s - 1) with (Zdigits2 n - 1 + s) by lia.
  rewrite !Z.pow_add_r by lia. nia.
Qed.

(** [float(n)] for a positive integer of at most 53 bits. *)
Lemma of_Z_small (n : Z) :
  0 < n < 2 ^ 53 ->
  of_Z n = S754_finite false (Z.to_pos (n * 2 ^ (53 - Zdigits2 n))) (Zdigits2 n - 53).
Proof.
  intros Hn. destruct (Zdigits2_range n ltac:(lia)) as (Hd & Hlo & Hhi).
  pose proof (Zdigits2_le n 53 ltac:(lia)) as Hd53.
  destruct n as [|n|n]; try lia.
  unfold of_Z, binary_normalize, binary_round.
  change (Z.pos (digits2_pos n)) with (Zdigits2 (Z.pos n)).
  set (d := Zdigits2 (Z.pos n)) in *.
  replace (fexp prec emax (d + 0)) with (d - 53)
    by (unfold fexp, emin, prec, emax; lia).
  assert (P : 0 < 2 ^ (53 - d)) by (apply Z.pow_pos_nonneg; lia).
  assert (E3 : 2 ^ (d - 1) * 2 ^ (53 - d) = 2 ^ 52).
  { rewrite <- Z.pow_add_r by lia. f_equal. lia. }
  assert (E4 : 2 ^ d * 2 ^ (53 - d) = 2 ^ 53).
  { rewrite <- Z.pow_add_r by lia. f_equal. lia. }
  unfold shl_align.
  destruct (Z.eq_dec d 53) as [E|Hne].
  - rewrite E in *. change (53 - 53 - 0) with 0. cbv beta iota.
    change (53 - 53) with 0 in *. rewrite Z.pow_0_r, Z.mul_1_r in *.
    rewrite binary_round_aux_exact_53 by lia. reflexivity.
  - destruct (d - 53 - 0) as [|p|p] eqn:Ep; try lia. cbv beta iota.
    rewrite pos_iter_xO.
    replace (Z.pos p) with (53 - d) by lia.
    rewrite binary_round_aux_exact_53 by nia. reflexivity.
Qed.

(** The quotient of [100 * n] by [100]. *)
Lemma div_Z_hundred_exact (n : Z) :
  0 < n < 2 ^ 46 -> div_Z (100 * n) 100 = of_Z n.
Proof.
  intros Hn. rewrite of_Z_small by lia.
  destruct (Zdigits2_range n ltac:(lia)) as (Hd & Hlo & Hhi).
  pose proof (Zdigits2_le n 46 ltac:(lia)) as Hd46.
  destruct (Zdigits2_range (100 * n) ltac:(lia)) as (Hd' & Hlo' & Hhi').
  pose proof (Zdigits2_le (100 * n) 53 ltac:(lia)) as Hd53.
  set (d := Zdigits2 n) in *. set (d1 := Zdigits2 (100 * n)) in *.
  assert (Hn' : exists a, 100 * n = Z.pos a).
  { destruct (100 * n) as [|a|a] eqn:E; try lia. now exists a. }
  destruct Hn' as [a Ea].
  unfold div_Z. rewrite Ea.
  change (Z.to_pos (Z.abs (Z.pos a))) with a.
  change (Z.to_pos (Z.abs 100)) with 100%positive.
  unfold SFdiv.
  change (xorb (Z.pos a <? 0) (100 <? 0)) with false.
  assert (Hd7 : Zdigits2 100 = 7) by reflexivity.
  rewrite div_core by (rewrite Hd7, <- Ea; fold d1; lia).
  rewrite Hd7, <- Ea. fold d1. cbv beta iota zeta.
  set (s := 53 + 7 - d1).
  assert (P : 0 < 2 ^ s) by (apply Z.pow_pos_nonneg; lia).
  replace (100 * n * 2 ^ s) with (n * 2 ^ s * 100) by lia.
  rewrite Z.div_mul, Z.mod_mul by lia.
  change (new_location 100 0) with loc_Exact.
  pose proof (div_core_bits (100 * n) 100 ltac:(lia) ltac:(lia)) as Hq.
  cbv zeta in Hq. rewrite Hd7 in Hq. fold d1 in Hq. fold s in Hq.
  specialize (Hq ltac:(lia)).
  replace (100 * n * 2 ^ s) with (n * 2 ^ s * 100) in Hq by lia.
  rewrite Z.div_mul in Hq by lia.
  pose proof (Zdigits2_mul_pow2 n s ltac:(lia) ltac:(lia)) as Hds. fold d in Hds.
  destruct (Z_lt_le_dec (n * 2 ^ s) (2 ^ 53)) as [Hlt|Hge].
  - assert (d + s = 53).
    { rewrite <- Hds. apply Zdigits2_bounds; lia. }
    rewrite binary_round_aux_exact_53 by lia.
    replace (53 - d) with s by lia. f_equal. lia.
  - assert (d + s = 54).
    { rewrite <- Hds. apply Zdigits2_bounds; lia. }
    assert (E2 : n * 2 ^ s = 2 * (n * 2 ^ (53 - d))).
    { replace s with (1 + (53 - d)) by lia. rewrite Z.pow_add_r by lia.
      change (2 ^ 1) with 2. lia. }
    rewrite binary_round_aux_exact.
    + f_equal; [|lia]. f_equal. rewrite E2, Z.mul_comm, Z.div_mul; lia.
    + lia.
    + rewrite E2, Z.even_mul. reflexivity.
    + lia.
Qed.

(** X19: for every size below 2^53 bytes [bytes_to_gb] returns a float,
    never [None]: zero or a finite positive number, and zero exactly for
    sizes up to 5368709 bytes. *)
Theorem X19_bytes_to_gb_is_a_float (b : Z) :
  0 <= b < 2 ^ 53 ->
  exists x,
    bytes_to_gb (VInt b) = VFloat x /\
    (x = S754_zero false <-> b <= 5368709) /\
    (x = S754_zero false \/ exists m e, x = S754_finite false m e).
Proof.
  intros Hb. rewrite bytes_to_gb_hundredths by assumption.
  eexists. split; [reflexivity|].
  pose proof (round_half_even_bounds (b * 100) 1073741824 ltac:(lia) ltac:(lia)) as Hk.
  assert (Hq : 0 <= b * 100 / 1073741824 < 2 ^ 31).
  { split; [apply Z.div_pos; lia|]. apply Z.div_lt_upper_bound; lia. }
  assert (Hz : round_half_even (b * 100) 1073741824 = 0 <-> b <= 5368709).
  { clear Hk Hq. unfold round_half_even.
    destruct (Z.compare_spec (2 * ((b * 100) mod 1073741824)) 1073741824);
      try destruct (Z.even (b * 100 / 1073741824));
      split; intros; Z.div_mod_to_equations; lia. }
  remember (round_half_even (b * 100) 1073741824) as k eqn:Ek.
  destruct k as [|k|k]; [| |lia].
  - split; [|now left]. split; [intros _; now apply Hz | reflexivity].
  - assert (Hd7 : Zdigits2 100 = 7) by reflexivity.
    pose proof (Zdigits2_le (Z.pos k) 58 ltac:(lia)).
    destruct (Zdigits2_range (Z.pos k) ltac:(lia)) as (Hk1 & _).
    destruct (div_Z_lower (Z.pos k) 100 ltac:(lia) ltac:(lia) ltac:(lia))
      as (m2 & e2 & -> & _).
    split; [|right; eauto]. split; [discriminate|].
    intros Hle. apply Hz in Hle. discriminate Hle.
Qed.

Lemma X19_bytes_to_gb_is_a_float_witness :
  0 <= 5368709 < 2 ^ 53 /\ bytes_to_gb (VInt 5368709) = VFloat (S754_zero false).
Proof.
  split; [lia|].
  destruct (X19_bytes_to_gb_is_a_float 5368709 ltac:(lia)) as (x & -> & Hz & _).
  f_equal. apply Hz. lia.
Defined.

(** X20: whole gigabytes are converted exactly: for [n] below 2^23,
    [bytes_to_gb] of [n * 1024^3] is [float(n)], so the RAM category passes
    exactly when [4 <= n] and the Disk category exactly when [64 <= n]. *)
Theorem X20_whole_gigabytes (n : Z) :
  0 <= n < 2 ^ 23 ->
  bytes_to_gb (VInt (n * 1024 ^ 3)) = VFloat (of_Z n) /\
  check_ram (bytes_to_gb (VInt (n * 1024 ^ 3))) = Ok (4 <=? n) /\
  check_disco (bytes_to_gb (VInt (n * 1024 ^ 3))) = Ok (64 <=? n).
Proof.
  intros Hn. change (1024 ^ 3) with 1073741824.
  assert (Hb : 0 <= n * 1073741824 < 2 ^ 53) by lia.
  split; [|split].
  - rewrite bytes_to_gb_hundredths by assumption. f_equal.
    assert (Hk : round_half_even (n * 1073741824 * 100) 1073741824 = 100 * n).
    { unfold round_half_even.
      replace (n * 1073741824 * 100) with (100 * n * 1073741824) by lia.
      rewrite Z.mod_mul, Z.div_mul by lia. reflexivity. }
    rewrite Hk. destruct (Z.eq_dec n 0) as [->|Hne]; [reflexivity|].
    apply div_Z_hundred_exact. lia.
  - rewrite ram_threshold_bytes by assumption. f_equal.
    destruct (Z.leb_spec 4 n), (Z.leb_spec 4289598587 (n * 1073741824));
      reflexivity || lia.
  - rewrite disk_threshold_bytes by assumption. f_equal.
    destruct (Z.leb_spec 64 n), (Z.leb_spec 68714108027 (n * 1073741824));
      reflexivity || lia.
Qed.

Lemma X20_whole_gigabytes_witness :
  0 <= 8 < 2 ^ 23 /\
  ram_gb (probe Samples.json_loads Samples.compatible) = VFloat (of_Z 8).
Proof.
  split; [lia|].
  exact (proj1 (X20_whole_gigabytes 8 ltac:(lia))).
Defined.

End WholeGigabytes.

(* ================================================================= *)
(** * Sound and the closing animation *)

Import Term.

Section Sound.





End Sound.

Section Logo.

Lemma line_ends_app (a b : string) :
  line_ends (a +:+ b) = (line_ends a + line_ends b)%nat.
Proof.
  induction a as [|c a IH]; [reflexivity|].
  change (String c a +:+ b) with (String c (a +:+ b)).
  cbn [line_ends]. rewrite IH. lia.
Qed.

Lemma lines_written_app (a b : list event) :
  lines_written (a ++ b) = (lines_written a + lines_written b)%nat.
Proof.
  induction a as [|e a IH]; [reflexivity|].
  destruct e; cbn [app lines_written]; rewrite IH; lia.
Qed.

Lemma lines_written_rows (rows : list string) :
  Forall (fun row => line_ends row = O) rows ->
  lines_written
    (map (fun row => print (esc +:+ "[93m" +:+ row +:+ esc +:+ "[0m")) rows)
  = length rows.
Proof.
  induction 1 as [|row rows Hrow _ IH]; [reflexivity|].
  cbn [map lines_written length]. unfold print at 1. rewrite IH.
  rewrite !line_ends_app, Hrow. reflexivity.
Qed.

Lemma lines_written_blank (n : nat) : lines_written (repeat (print "") n) = n.
Proof. induction n as [|n IH]; [reflexivity|]. cbn [repeat]. unfold print at 1. cbn. now rewrite IH. Qed.

Lemma line_ends_of_uint (d : Decimal.uint) :
  line_ends (NilEmpty.string_of_uint d) = O.
Proof. induction d; cbn; assumption || reflexivity. Qed.

Lemma line_ends_of_Z (z : Z) : line_ends (Str.of_Z z) = O.
Proof.
  unfold Str.of_Z, NilZero.string_of_int, NilZero.string_of_uint.
  destruct (Z.to_int z) as [d|d]; destruct d; cbn [line_ends];
    try reflexivity; try apply line_ends_of_uint;
    cbn; try apply line_ends_of_uint.
Qed.

(** X22: every round of the closing animation writes as many lines as
    the logo has rows (rows without a line end), the amount by which the
    cursor is then moved up; the last round draws all the rows and does not
    move the cursor. *)
Theorem X22_logo_frame_height (rows : list string) (i : nat) :
  (i < length rows)%nat ->
  Forall (fun row => line_ends row = O) rows ->
  lines_written (logo_frame rows i) = length rows /\
  (i = (length rows - 1)%nat ->
   logo_frame rows i =
   map (fun row => print (esc +:+ "[93m" +:+ row +:+ esc +:+ "[0m")) rows
   ++ [sleep_025]) /\
  (i <> (length rows - 1)%nat ->
   exists drawn,
     logo_frame rows i =
     drawn ++ [Write (esc +:+ "[" +:+ Str.of_Z (Z.of_nat (length rows)) +:+ "A")]).
Proof.
  intros Hi Hrows. unfold logo_frame. split; [|split].
  - assert (Hc : lines_written
                   ([sleep_025] ++
                    (if Nat.eqb i (length rows - 1) then []
                     else [Write (esc +:+ "[" +:+
                                  Str.of_Z (Z.of_nat (length rows)) +:+ "A")])) = O).
    { destruct (Nat.eqb i (length rows - 1)); [reflexivity|].
      unfold sleep_025. cbn [app lines_written].
      rewrite !line_ends_app, line_ends_of_Z. reflexivity. }
    rewrite lines_written_app, lines_written_app, Hc, lines_written_blank.
    rewrite lines_written_rows by (apply Forall_take; exact Hrows).
    rewrite length_firstn. lia.
  - intros ->. rewrite Nat.eqb_refl, app_nil_r.
    replace (S (length rows - 1)) with (length rows) by lia.
    rewrite firstn_all, Nat.sub_diag. reflexivity.
  - intros Hne. destruct (Nat.eqb_spec i (length rows - 1)) as [|_]; [contradiction|].
    eexists. rewrite !app_assoc. reflexivity.
Qed.

Lemma X22_logo_frame_height_witness :
  (2 < length logo)%nat /\
  Forall (fun row => line_ends row = O) logo /\
  lines_written (logo_frame logo 2) = 7%nat.
Proof.
  assert (H : Forall (fun row => line_ends row = O) logo)
    by (repeat constructor).
  split; [cbn; lia|]. split; [exact H|].
  exact (proj1 (X22_logo_frame_height logo 2 ltac:(cbn; lia) H)).
Defined.

End Logo.
